(** * PharmaFirst triage core: state machine and UTI escalation policy

    A shallow embedding of
      - [src/lib/triage/stateMachine.ts] (class [UTITriageStateMachine]),
      - the UTI triage worker ([assessUTISymptoms],
        [extractSymptomsFromTranscript], [getUTIDecisionTree],
        [processUTITriage]) and
      - the part of the voice agent that drives the state machine
        ([processTriageLogic], [processAudio], [completeTriage]),
    followed by the properties that the design document states about them
    and by further properties read off the code.

    TypeScript types are erased when the program runs, so the embedding keeps
    the run-time shapes: a string-literal union that receives an unchecked
    cast is a [string], an optional field is an [option], an object that is
    only read by property name is a finite map from names to values. *)

From Stdlib Require Import String Ascii DecimalString.
From stdpp Require Import base option list gmap strings.

Open Scope string_scope.

(** ** The triage state machine *)

Module StateMachine.

(** [type TriageState = 'INITIAL' | ... | 'COMPLETED'].  The field that holds
    it is assigned from [event.data?.previousState as TriageState], a cast
    that checks nothing, so the state is whatever string arrived. *)
Definition TriageState : Type := string.

Definition INITIAL : TriageState := "INITIAL".
Definition IDENTITY_VERIFICATION : TriageState := "IDENTITY_VERIFICATION".
Definition SYMPTOM_ASSESSMENT : TriageState := "SYMPTOM_ASSESSMENT".
Definition RED_FLAG_CHECK : TriageState := "RED_FLAG_CHECK".
Definition FOLLOW_UP_SELECTION : TriageState := "FOLLOW_UP_SELECTION".
Definition DELIVERY_OPTIONS : TriageState := "DELIVERY_OPTIONS".
Definition CONFIRMATION : TriageState := "CONFIRMATION".
Definition ESCALATED : TriageState := "ESCALATED".
Definition COMPLETED : TriageState := "COMPLETED".

(** The nine members of the union, in declaration order. *)
Definition triageStates : list TriageState :=
  [INITIAL; IDENTITY_VERIFICATION; SYMPTOM_ASSESSMENT; RED_FLAG_CHECK;
   FOLLOW_UP_SELECTION; DELIVERY_OPTIONS; CONFIRMATION; ESCALATED; COMPLETED].

(** A value read out of an event payload: a string, or [undefined]. *)
Definition JsValue : Type := option string.

(** JavaScript truthiness on that domain: [undefined] and the empty string
    are falsy. *)
Definition truthy (v : JsValue) : bool :=
  match v with
  | Some s => negb (s =? "")
  | None => false
  end.

(** Strict equality [v === 'literal']. *)
Definition strictEq (v : JsValue) (lit : string) : bool :=
  match v with
  | Some s => s =? lit
  | None => false
  end.

(** [interface TriageContext].  The two collections are arrays, kept in
    insertion order; [metadata] is an object used as a map (its values are
    kept as strings here; no operation below reads them). *)
Record TriageContext := mkContext {
  state : TriageState;
  patientId : JsValue;
  patientName : JsValue;
  patientDOB : JsValue;
  symptoms : list JsValue;
  redFlags : list JsValue;
  followUpOption : JsValue;
  deliveryOption : JsValue;
  language : JsValue;
  metadata : gmap string string
}.

(** [interface TriageEvent]: [data?: any] is an object read by property
    name; a property that is missing reads as [undefined]. *)
Record TriageEvent := mkEvent {
  type : string;
  data : option (gmap string string)
}.

(** [event.data?.field]. *)
Definition field (ev : TriageEvent) (name : string) : JsValue :=
  match data ev with
  | Some d => d !! name
  | None => None
  end.

(** [Partial<TriageContext>], the optional argument of the constructor. *)
Record PartialContext := mkPartial {
  p_state : option TriageState;
  p_patientId : option JsValue;
  p_patientName : option JsValue;
  p_patientDOB : option JsValue;
  p_symptoms : option (list JsValue);
  p_redFlags : option (list JsValue);
  p_followUpOption : option JsValue;
  p_deliveryOption : option JsValue;
  p_language : option JsValue;
  p_metadata : option (gmap string string)
}.

Definition emptyPartial : PartialContext :=
  mkPartial None None None None None None None None None None.

(** The constructor: defaults first, then the spread of [initialContext],
    in which every key that is given overrides its default. *)
Definition createTriageStateMachine (initialContext : option PartialContext)
  : TriageContext :=
  let p := default emptyPartial initialContext in
  {| state := default INITIAL (p_state p);
     patientId := default None (p_patientId p);
     patientName := default None (p_patientName p);
     patientDOB := default None (p_patientDOB p);
     symptoms := default [] (p_symptoms p);
     redFlags := default [] (p_redFlags p);
     followUpOption := default None (p_followUpOption p);
     deliveryOption := default None (p_deliveryOption p);
     language := default None (p_language p);
     metadata := default ∅ (p_metadata p) |}.

(** Field updates of [this.context]. *)
Definition set_state (s : TriageState) (c : TriageContext) : TriageContext :=
  mkContext s (patientId c) (patientName c) (patientDOB c) (symptoms c)
    (redFlags c) (followUpOption c) (deliveryOption c) (language c) (metadata c).

Definition set_identity (pid name dob : JsValue) (c : TriageContext)
  : TriageContext :=
  mkContext (state c) pid name dob (symptoms c) (redFlags c)
    (followUpOption c) (deliveryOption c) (language c) (metadata c).

Definition push_symptom (v : JsValue) (c : TriageContext) : TriageContext :=
  mkContext (state c) (patientId c) (patientName c) (patientDOB c)
    (symptoms c ++ [v]) (redFlags c) (followUpOption c) (deliveryOption c)
    (language c) (metadata c).

Definition push_redFlag (v : JsValue) (c : TriageContext) : TriageContext :=
  mkContext (state c) (patientId c) (patientName c) (patientDOB c)
    (symptoms c) (redFlags c ++ [v]) (followUpOption c) (deliveryOption c)
    (language c) (metadata c).

Definition set_followUpOption (v : JsValue) (c : TriageContext)
  : TriageContext :=
  mkContext (state c) (patientId c) (patientName c) (patientDOB c)
    (symptoms c) (redFlags c) v (deliveryOption c) (language c) (metadata c).

Definition set_deliveryOption (v : JsValue) (c : TriageContext)
  : TriageContext :=
  mkContext (state c) (patientId c) (patientName c) (patientDOB c)
    (symptoms c) (redFlags c) (followUpOption c) v (language c) (metadata c).

(** The value [processEvent] returns: the new state and a copy of the
    context. *)
Record ProcessResult := mkResult {
  newState : TriageState;
  context : TriageContext
}.

(** The [switch (currentState)] of [processEvent], as the context it leaves
    in [this.context].  There is no [default:] arm, so a state outside the
    nine falls through unchanged. *)
Definition transition (event : TriageEvent) (c : TriageContext)
  : TriageContext :=
  let currentState := state c in
  if currentState =? INITIAL then
    if type event =? "START_TRIAGE" then set_state IDENTITY_VERIFICATION c
    else c
  else if currentState =? IDENTITY_VERIFICATION then
    if type event =? "IDENTITY_VERIFIED" then
      set_state SYMPTOM_ASSESSMENT
        (set_identity (field event "patientId") (field event "name")
           (field event "dob") c)
    else if type event =? "IDENTITY_FAILED" then
      set_state IDENTITY_VERIFICATION c
    else c
  else if currentState =? SYMPTOM_ASSESSMENT then
    if type event =? "SYMPTOM_RECORDED" then
      push_symptom (field event "symptom") c
    else if type event =? "SYMPTOMS_COMPLETE" then set_state RED_FLAG_CHECK c
    else c
  else if currentState =? RED_FLAG_CHECK then
    if type event =? "RED_FLAG_DETECTED" then
      set_state ESCALATED (push_redFlag (field event "redFlag") c)
    else if type event =? "NO_RED_FLAGS" then set_state FOLLOW_UP_SELECTION c
    else c
  else if currentState =? FOLLOW_UP_SELECTION then
    if type event =? "FOLLOW_UP_SELECTED" then
      let c1 := set_followUpOption (field event "option") c in
      if strictEq (field event "option") "TEXT_MESSAGE"
      then set_state DELIVERY_OPTIONS c1
      else set_state CONFIRMATION c1
    else c
  else if currentState =? DELIVERY_OPTIONS then
    if type event =? "DELIVERY_SELECTED" then
      set_state CONFIRMATION (set_deliveryOption (field event "option") c)
    else if type event =? "PICKUP_SELECTED" then
      set_state CONFIRMATION (set_deliveryOption (Some "PICKUP") c)
    else c
  else if currentState =? CONFIRMATION then
    if type event =? "CONFIRMED" then set_state COMPLETED c
    else if type event =? "CHANGE_REQUESTED" then
      let previousState := field event "previousState" in
      match previousState with
      | Some target => if truthy previousState then set_state target c else c
      | None => c
      end
    else c
  else if currentState =? ESCALATED then c
  else if currentState =? COMPLETED then c
  else c.

(** [processEvent]: the returned pair and the context left in the machine.
    The returned [context] is a shallow copy with the same contents. *)
Definition processEvent (event : TriageEvent) (c : TriageContext)
  : ProcessResult * TriageContext :=
  let c' := transition event c in
  ({| newState := state c'; context := c' |}, c').

(** A session fed a sequence of events, one call after the other. *)
Definition processEvents (events : list TriageEvent) (c : TriageContext)
  : TriageContext :=
  foldl (fun acc ev => snd (processEvent ev acc)) c events.

Definition getState (c : TriageContext) : TriageState := state c.

Definition getContext (c : TriageContext) : TriageContext := c.


Definition setLanguage (l : string) (c : TriageContext) : TriageContext :=
  mkContext (state c) (patientId c) (patientName c) (patientDOB c)
    (symptoms c) (redFlags c) (followUpOption c) (deliveryOption c)
    (Some l) (metadata c).

Definition isComplete (c : TriageContext) : bool :=
  (state c =? COMPLETED) || (state c =? ESCALATED).

Definition needsPharmacistReview (c : TriageContext) : bool :=
  (state c =? ESCALATED) || (0 <? length (redFlags c))%nat
  || (state c =? CONFIRMATION).

Definition getNextQuestion (c : TriageContext) : option string :=
  let s := state c in
  if s =? IDENTITY_VERIFICATION then
    Some "To help you today, could I please have your full name and date of birth?"
  else if s =? SYMPTOM_ASSESSMENT then
    Some "Can you tell me about your symptoms?"
  else if s =? RED_FLAG_CHECK then
    Some "Do you have any of the following: high temperature, pain in your sides or back, nausea, or blood in your urine?"
  else if s =? FOLLOW_UP_SELECTION then
    Some "How would you like to proceed? I can arrange a phone call from our pharmacist, an in-person consultation, or send you a text message with medication details."
  else if s =? DELIVERY_OPTIONS then
    Some "Would you like to collect the medication from the pharmacy, or have it delivered?"
  else if s =? CONFIRMATION then
    Some "Is there anything else I can help you with today?"
  else None.

End StateMachine.

(** ** The UTI triage worker *)

Module UTI.

(** [UTISymptom.type]. *)
Inductive SymptomType :=
  | burning_pain | frequency | cloudy_urine | lower_abdominal_pain
  | general_malaise.

Inductive Severity := mild | moderate | severe.

(** [interface UTISymptom]; [duration] is a number of days. *)
Record UTISymptom := mkSymptom {
  s_type : SymptomType;
  s_present : bool;
  severity : option Severity;
  duration : option Z
}.

(** [UTIRedFlag.type]. *)
Inductive RedFlagType :=
  | high_temperature | kidney_pain | nausea_vomiting | blood_in_urine
  | symptoms_over_7_days | pregnancy | diabetes | immunocompromised.

(** [interface UTIRedFlag]. *)
Record UTIRedFlag := mkRedFlag {
  rf_type : RedFlagType;
  rf_present : bool
}.

Inductive Recommendation := treat | escalate | refer.

(** [interface UTITriageResult]. *)
Record UTITriageResult := mkTriageResult {
  suitableForTreatment : bool;
  redFlags : list UTIRedFlag;
  symptoms : list UTISymptom;
  recommendation : Recommendation;
  reasoning : string
}.

#[global] Instance SymptomType_eq_dec : EqDecision SymptomType.
Proof. solve_decision. Defined.

#[global] Instance RedFlagType_eq_dec : EqDecision RedFlagType.
Proof. solve_decision. Defined.

#[global] Instance Recommendation_eq_dec : EqDecision Recommendation.
Proof. solve_decision. Defined.

(** [s.type === 'burning_pain'] and the like. *)
Definition SymptomType_eqb (a b : SymptomType) : bool := bool_decide (a = b).

(** The string a red-flag type is at run time, for the reasoning text. *)
Definition RedFlagType_name (t : RedFlagType) : string :=
  match t with
  | high_temperature => "high_temperature"
  | kidney_pain => "kidney_pain"
  | nausea_vomiting => "nausea_vomiting"
  | blood_in_urine => "blood_in_urine"
  | symptoms_over_7_days => "symptoms_over_7_days"
  | pregnancy => "pregnancy"
  | diabetes => "diabetes"
  | immunocompromised => "immunocompromised"
  end.

(** [`${n}`] for a count. *)
Definition showNat (n : nat) : string :=
  NilEmpty.string_of_uint (Nat.to_uint n).

(** [symptoms.some((s) => s.type === t && s.present)]. *)
Definition hasSymptom (t : SymptomType) (symptoms : list UTISymptom) : bool :=
  existsb (fun s => SymptomType_eqb (s_type s) t && s_present s) symptoms.

(** The number called [mainSymptoms] in the source. *)
Definition mainSymptoms (symptoms : list UTISymptom) : nat :=
  let hasBurningPain := hasSymptom burning_pain symptoms in
  let hasFrequency := hasSymptom frequency symptoms in
  let hasCloudyUrine := hasSymptom cloudy_urine symptoms in
  let hasLowerPain := hasSymptom lower_abdominal_pain symptoms in
  length (List.filter (fun b : bool => b)
            [hasBurningPain; hasFrequency; hasCloudyUrine; hasLowerPain]).

Definition assessUTISymptoms (symptoms : list UTISymptom)
    (redFlags : list UTIRedFlag) : UTITriageResult :=
  let presentRedFlags := List.filter rf_present redFlags in
  if (0 <? length presentRedFlags)%nat then
    {| suitableForTreatment := false;
       redFlags := presentRedFlags;
       symptoms := symptoms;
       recommendation := escalate;
       reasoning :=
         "Red flags detected: "
         ++ String.concat ", "
              (map (fun rf => RedFlagType_name (rf_type rf)) presentRedFlags)
         ++ ". Immediate pharmacist review required." |}
  else
    let mainSymptoms := mainSymptoms symptoms in
    if (2 <=? mainSymptoms)%nat then
      {| suitableForTreatment := true;
         redFlags := [];
         symptoms := symptoms;
         recommendation := treat;
         reasoning :=
           "Patient presents with " ++ showNat mainSymptoms
           ++ " main UTI symptoms. Suitable for Pharmacy First treatment pending pharmacist confirmation." |}
    else
      {| suitableForTreatment := false;
         redFlags := [];
         symptoms := symptoms;
         recommendation := escalate;
         reasoning :=
           "Insufficient or unclear symptoms. Pharmacist review recommended." |}.

End UTI.

(** ** What the design document says, written down next to the code *)

Module Design.
Import StateMachine.

(** The transition table of the design document, one row per listed
    (state, event kind) pair.  The two rows "ESCALATED, any" and "COMPLETED,
    any" are covered by [listed] below. *)
Definition transitionTable : list (TriageState * string) :=
  [ (INITIAL, "START_TRIAGE");
    (IDENTITY_VERIFICATION, "IDENTITY_VERIFIED");
    (IDENTITY_VERIFICATION, "IDENTITY_FAILED");
    (SYMPTOM_ASSESSMENT, "SYMPTOM_RECORDED");
    (SYMPTOM_ASSESSMENT, "SYMPTOMS_COMPLETE");
    (RED_FLAG_CHECK, "RED_FLAG_DETECTED");
    (RED_FLAG_CHECK, "NO_RED_FLAGS");
    (FOLLOW_UP_SELECTION, "FOLLOW_UP_SELECTED");
    (DELIVERY_OPTIONS, "DELIVERY_SELECTED");
    (DELIVERY_OPTIONS, "PICKUP_SELECTED");
    (CONFIRMATION, "CONFIRMED");
    (CONFIRMATION, "CHANGE_REQUESTED") ].

Definition listed (st : TriageState) (kind : string) : bool :=
  existsb (fun row => (fst row =? st) && (snd row =? kind)) transitionTable
  || (st =? ESCALATED) || (st =? COMPLETED).

(** Terminal states of the design document. *)
Definition terminal (st : TriageState) : Prop :=
  st = ESCALATED \/ st = COMPLETED.

(** The states a session has been in: before the first event and after each
    one. *)
Fixpoint visitedStates (events : list TriageEvent) (c : TriageContext)
  : list TriageState :=
  match events with
  | [] => [state c]
  | ev :: rest => state c :: visitedStates rest (snd (processEvent ev c))
  end.

(** The states for which [getNextQuestion] has a [case]. *)
Definition promptedStates : list TriageState :=
  [IDENTITY_VERIFICATION; SYMPTOM_ASSESSMENT; RED_FLAG_CHECK;
   FOLLOW_UP_SELECTION; DELIVERY_OPTIONS; CONFIRMATION].

(** The red-flag list of a session that started without red flags: empty,
    or a single entry in a session that has escalated. *)
Definition redFlags_inv (c : TriageContext) : Prop :=
  redFlags c = [] \/ (state c = ESCALATED /\ length (redFlags c) = 1%nat).

(** Events used in the examples below. *)
Definition ev (kind : string) : TriageEvent := mkEvent kind None.

Definition evWith (kind : string) (payload : list (string * string))
  : TriageEvent :=
  mkEvent kind (Some (list_to_map payload)).

(** A caller who chooses a phone call arrives at CONFIRMATION without ever
    seeing DELIVERY_OPTIONS. *)
Definition phoneCallPath : list TriageEvent :=
  [ ev "START_TRIAGE";
    evWith "IDENTITY_VERIFIED" [("name", "Jane Doe"); ("dob", "1990-01-01")];
    ev "SYMPTOMS_COMPLETE";
    ev "NO_RED_FLAGS";
    evWith "FOLLOW_UP_SELECTED" [("option", "PHONE_CALL")] ].

(** The same symptom reported twice. *)
Definition repeatedSymptomPath : list TriageEvent :=
  [ ev "START_TRIAGE";
    evWith "IDENTITY_VERIFIED" [("name", "Jane Doe"); ("dob", "1990-01-01")];
    evWith "SYMPTOM_RECORDED" [("symptom", "burning_pain")];
    evWith "SYMPTOM_RECORDED" [("symptom", "burning_pain")] ].

(** An IDENTITY_VERIFIED event whose payload has no [name]. *)
Definition namelessIdentity : TriageEvent :=
  evWith "IDENTITY_VERIFIED" [("dob", "1990-01-01")].

(** A session that has been started and waits for the caller's identity. *)
Definition awaitingIdentity : TriageContext :=
  processEvents [ev "START_TRIAGE"] (createTriageStateMachine None).

(** A session at CONFIRMATION after the phone-call path. *)
Definition awaitingConfirmation : TriageContext :=
  processEvents phoneCallPath (createTriageStateMachine None).

(** A change request that names a terminal state. *)
Definition changeToCompleted : TriageEvent :=
  evWith "CHANGE_REQUESTED" [("previousState", "COMPLETED")].

End Design.

Module Protocol.
Import UTI.

(** The UTI protocol of the design document: the four main symptoms and the
    threshold of two. *)
Definition mainSymptomKinds : list SymptomType :=
  [burning_pain; frequency; cloudy_urine; lower_abdominal_pain].

Definition mainSymptomThreshold : nat := 2.

(** A symptom kind is present when some entry of that kind says so. *)
Definition presentKind (symptoms : list UTISymptom) (k : SymptomType) : Prop :=
  Exists (fun s => s_type s = k /\ s_present s = true) symptoms.

#[global] Instance presentKind_dec symptoms k : Decision (presentKind symptoms k).
Proof. unfold presentKind. apply _. Defined.

(** The count of present main symptoms: how many of the four main kinds are
    present. *)
Definition presentMainCount (symptoms : list UTISymptom) : nat :=
  length (filter (presentKind symptoms) mainSymptomKinds).

(** Example inputs. *)
Definition sym (k : SymptomType) (p : bool) : UTISymptom :=
  mkSymptom k p None None.

Definition twoMainSymptoms : list UTISymptom :=
  [sym burning_pain true; sym frequency true].

Definition absentRedFlag : list UTIRedFlag :=
  [mkRedFlag high_temperature false].

Definition presentRedFlag : list UTIRedFlag :=
  [mkRedFlag pregnancy false; mkRedFlag high_temperature true].

End Protocol.

(** ** Text helpers of the worker and the voice agent *)

Module Text.

(** One character of [String.prototype.toLowerCase].  A transcript is a
    string of characters with codes below 256 (ASCII and Latin-1); there the
    letters A-Z and the Latin-1 capitals (192-222, the sign 215 apart) move
    up by 32 and every other character stays. *)
Definition toLowerChar (c : ascii) : ascii :=
  let n := nat_of_ascii c in
  if ((65 <=? n)%nat && (n <=? 90)%nat)
     || ((192 <=? n)%nat && (n <=? 222)%nat && negb (n =? 215)%nat)
  then ascii_of_nat (n + 32)
  else c.

Fixpoint toLowerCase (s : string) : string :=
  match s with
  | EmptyString => EmptyString
  | String c rest => String (toLowerChar c) (toLowerCase rest)
  end.

(** [s.includes(needle)]: [needle] starts at some position of [s]. *)
Fixpoint includes (s needle : string) : bool :=
  String.prefix needle s
  || match s with
     | EmptyString => false
     | String _ rest => includes rest needle
     end.

(** [s.match(/a|b|c/)] is not [null]: one of the literal alternatives occurs
    in [s]. *)
Definition matchAlt (alternatives : list string) (s : string) : bool :=
  existsb (includes s) alternatives.

End Text.

(** ** The rest of the UTI triage worker *)

Module UTIWorker.
Import UTI Text.

(** What [extractSymptomsFromTranscript] returns. *)
Record Extraction := mkExtraction {
  e_symptoms : list UTISymptom;
  e_redFlags : list UTIRedFlag
}.

(** [if (cond) { array.push(x) }]. *)
Definition pushIf {A : Type} (cond : bool) (x : A) (array : list A) : list A :=
  if cond then array ++ [x] else array.

Definition extractSymptomsFromTranscript (transcript : string) : Extraction :=
  let transcriptLower := toLowerCase transcript in
  let symptoms : list UTISymptom := [] in
  let redFlags : list UTIRedFlag := [] in
  let symptoms :=
    pushIf (matchAlt ["burn"; "pain"; "sting"; "urine"; "pee"; "wee"] transcriptLower)
      (mkSymptom burning_pain true None None) symptoms in
  let symptoms :=
    pushIf (matchAlt ["frequent"; "often"; "keep going"; "toilet"] transcriptLower)
      (mkSymptom frequency true None None) symptoms in
  let symptoms :=
    pushIf (matchAlt ["cloudy"; "dark"; "smell"; "strong"] transcriptLower)
      (mkSymptom cloudy_urine true None None) symptoms in
  let symptoms :=
    pushIf (matchAlt ["lower"; "tummy"; "stomach"; "belly"] transcriptLower)
      (mkSymptom lower_abdominal_pain true None None) symptoms in
  let redFlags :=
    pushIf (matchAlt ["fever"; "temperature"; "high temp"; "hot"] transcriptLower)
      (mkRedFlag high_temperature true) redFlags in
  let redFlags :=
    pushIf (matchAlt ["side"; "back"; "kidney"; "flank"] transcriptLower)
      (mkRedFlag kidney_pain true) redFlags in
  let redFlags :=
    pushIf (matchAlt ["nausea"; "sick"; "vomit"; "throw up"] transcriptLower)
      (mkRedFlag nausea_vomiting true) redFlags in
  let redFlags :=
    pushIf (matchAlt ["blood"; "red"; "pink"] transcriptLower)
      (mkRedFlag blood_in_urine true) redFlags in
  let redFlags :=
    pushIf (matchAlt ["week"; "7 days"; "more than"] transcriptLower)
      (mkRedFlag symptoms_over_7_days true) redFlags in
  let redFlags :=
    pushIf (matchAlt ["pregnant"; "expecting"; "baby"] transcriptLower)
      (mkRedFlag pregnancy true) redFlags in
  let redFlags :=
    pushIf (matchAlt ["diabetes"; "diabetic"] transcriptLower)
      (mkRedFlag diabetes true) redFlags in
  {| e_symptoms := symptoms; e_redFlags := redFlags |}.

(** The string a symptom type is at run time. *)
Definition SymptomType_name (t : SymptomType) : string :=
  match t with
  | burning_pain => "burning_pain"
  | frequency => "frequency"
  | cloudy_urine => "cloudy_urine"
  | lower_abdominal_pain => "lower_abdominal_pain"
  | general_malaise => "general_malaise"
  end.

Inductive QuestionType := symptom | red_flag.

Record Question := mkQuestion {
  id : string;
  text : string;
  q_type : QuestionType
}.

#[global] Instance QuestionType_eq_dec : EqDecision QuestionType.
Proof. solve_decision. Defined.

(** [getUTIDecisionTree().questions]. *)
Definition getUTIDecisionTree : list Question :=
  [ mkQuestion "burning_pain"
      "Do you have burning or pain when passing urine?" symptom;
    mkQuestion "frequency"
      "Do you need to pass urine more often than usual?" symptom;
    mkQuestion "cloudy_urine"
      "Is your urine cloudy, dark, or have a strong smell?" symptom;
    mkQuestion "lower_abdominal_pain"
      "Do you have pain in your lower tummy or back?" symptom;
    mkQuestion "high_temperature"
      "Do you have a high temperature or fever?" red_flag;
    mkQuestion "kidney_pain"
      "Do you have pain in your sides or back (kidney area)?" red_flag;
    mkQuestion "nausea_vomiting"
      "Are you feeling nauseous or have you vomited?" red_flag;
    mkQuestion "blood_in_urine"
      "Have you noticed any blood in your urine?" red_flag;
    mkQuestion "symptoms_over_7_days"
      "Have you had these symptoms for more than 7 days?" red_flag;
    mkQuestion "pregnancy"
      "Are you currently pregnant?" red_flag;
    mkQuestion "diabetes"
      "Do you have diabetes or any condition that affects your immune system?"
      red_flag ].

(** The [triageData] argument of [processUTITriage]. *)
Record TriageData := mkTriageData {
  td_symptoms : list UTISymptom;
  td_redFlags : list UTIRedFlag;
  td_followUpOption : option string;
  td_deliveryOption : option string
}.

Inductive DocumentationStatus := DRAFT | PENDING_APPROVAL.

#[global] Instance DocumentationStatus_eq_dec : EqDecision DocumentationStatus.
Proof. solve_decision. Defined.

(** The [data] object handed to [db.consultation.create]. *)
Record ConsultationData := mkConsultationData {
  cd_orgId : string;
  cd_patientId : string;
  cd_type : string;
  cd_triageData : TriageData;
  cd_redFlags : list string;
  cd_documentationStatus : DocumentationStatus
}.

(** What [processUTITriage] resolves to. *)
Record TriageOutcome := mkTriageOutcome {
  consultationId : string;
  result : UTITriageResult;
  needsApproval : bool
}.

Section WithDatabase.

(** [db.consultation.create], as the id of the record it creates; the call
    is taken to succeed. *)
Variable consultation_create : ConsultationData -> string.

(** The record [processUTITriage] asks the database to create. *)
Definition consultationData (orgId patientId : string) (triageData : TriageData)
  : ConsultationData :=
  let result :=
    assessUTISymptoms (td_symptoms triageData) (td_redFlags triageData) in
  {| cd_orgId := orgId;
     cd_patientId := patientId;
     cd_type := "UTI_WOMEN";
     cd_triageData :=
       {| td_symptoms := td_symptoms triageData;
          td_redFlags := td_redFlags triageData;
          td_followUpOption := td_followUpOption triageData;
          td_deliveryOption := td_deliveryOption triageData |};
     cd_redFlags :=
       map (fun rf => RedFlagType_name (rf_type rf)) (UTI.redFlags result);
     cd_documentationStatus :=
       if bool_decide (recommendation result = escalate)
       then DRAFT else PENDING_APPROVAL |}.

Definition processUTITriage (orgId patientId : string)
    (triageData : TriageData) : TriageOutcome :=
  let result :=
    assessUTISymptoms (td_symptoms triageData) (td_redFlags triageData) in
  let consultation_id :=
    consultation_create (consultationData orgId patientId triageData) in
  {| consultationId := consultation_id;
     result := result;
     needsApproval := negb (bool_decide (recommendation result = escalate)) |}.

End WithDatabase.

(** The four symptoms and the seven red flags the extractor can report, in
    the order in which it tests for them. *)
Definition extractableSymptoms : list UTISymptom :=
  [ mkSymptom burning_pain true None None;
    mkSymptom frequency true None None;
    mkSymptom cloudy_urine true None None;
    mkSymptom lower_abdominal_pain true None None ].

Definition extractableRedFlags : list UTIRedFlag :=
  [ mkRedFlag high_temperature true; mkRedFlag kidney_pain true;
    mkRedFlag nausea_vomiting true; mkRedFlag blood_in_urine true;
    mkRedFlag symptoms_over_7_days true; mkRedFlag pregnancy true;
    mkRedFlag diabetes true ].

End UTIWorker.

(** ** The voice agent's use of the state machine *)

Module VoiceAgent.
Import StateMachine UTI Text UTIWorker.

(** [interface AgentState]; [triageState] is set to [null] by the
    constructor and not used again, so it is left out. *)
Record AgentState := mkAgentState {
  callSessionId : string;
  a_language : JsValue;
  transcript : list string;
  a_patientId : JsValue
}.

(** A [GeminiVoiceAgent] once [createVoiceAgent] has built and initialised
    it: the two configuration fields that are read later, the agent's own
    state and its triage machine. *)
Record Agent := mkAgent {
  cfg_orgId : string;
  cfg_callSessionId : string;
  a_state : AgentState;
  triageMachine : TriageContext
}.

(** What one call of [processAudio] receives from outside: the language
    that [detectLanguage] reports and the text of Gemini's response, if
    any. *)
Record AudioTurn := mkAudioTurn {
  detected_language : string;
  response_text : JsValue
}.

Definition set_machine (m : TriageContext) (a : Agent) : Agent :=
  mkAgent (cfg_orgId a) (cfg_callSessionId a) (a_state a) m.

Definition set_agent_language (l : string) (a : Agent) : Agent :=
  mkAgent (cfg_orgId a) (cfg_callSessionId a)
    (mkAgentState (callSessionId (a_state a)) (Some l)
       (transcript (a_state a)) (a_patientId (a_state a)))
    (triageMachine a).

Definition push_transcript (t : string) (a : Agent) : Agent :=
  mkAgent (cfg_orgId a) (cfg_callSessionId a)
    (mkAgentState (callSessionId (a_state a)) (a_language (a_state a))
       (transcript (a_state a) ++ [t]) (a_patientId (a_state a)))
    (triageMachine a).

(** The constructor followed by a successful [initialize], for a
    configuration and the preferred language found for the call. *)
Definition createVoiceAgent (orgId sessionId preferredLanguage : string)
  : Agent :=
  {| cfg_orgId := orgId;
     cfg_callSessionId := sessionId;
     a_state := mkAgentState sessionId None [] None;
     triageMachine :=
       createTriageStateMachine
         (Some (mkPartial None None None None None None None None
                  (Some (Some preferredLanguage))
                  (Some (list_to_map [("orgId", orgId);
                                      ("callSessionId", sessionId)])))) |}.

Section WithMatchers.

(** The two regular expressions of the identity step, each as the text of
    its first capture group when it matches. *)
Variable nameMatch : string -> option string.
Variable dobMatch : string -> option string.

(** [processTriageLogic]: whether [escalateToPharmacist] was called, and the
    triage machine afterwards.  [currentState] is read once, before any
    event is sent. *)
Definition processTriageLogic (transcriptText : string) (m : TriageContext)
  : bool * TriageContext :=
  let currentState := getState m in
  let transcriptLower := toLowerCase transcriptText in
  let m :=
    if currentState =? "IDENTITY_VERIFICATION" then
      match nameMatch transcriptText, dobMatch transcriptText with
      | Some name, Some dob =>
          snd (processEvent
                 (mkEvent "IDENTITY_VERIFIED"
                    (Some (list_to_map [("name", name); ("dob", dob)]))) m)
      | _, _ => m
      end
    else m in
  let '(escalated, m) :=
    if currentState =? "SYMPTOM_ASSESSMENT" then
      let extraction := extractSymptomsFromTranscript transcriptText in
      match e_redFlags extraction with
      | rf :: _ =>
          (true,
           snd (processEvent
                  (mkEvent "RED_FLAG_DETECTED"
                     (Some (list_to_map
                              [("redFlag", RedFlagType_name (rf_type rf))]))) m))
      | [] =>
          if (2 <=? length (e_symptoms extraction))%nat
          then (false, snd (processEvent (mkEvent "SYMPTOMS_COMPLETE" None) m))
          else (false, m)
      end
    else (false, m) in
  let m :=
    if currentState =? "FOLLOW_UP_SELECTION" then
      if includes transcriptLower "phone" || includes transcriptLower "call" then
        snd (processEvent
               (mkEvent "FOLLOW_UP_SELECTED"
                  (Some (list_to_map [("option", "PHONE_CALL")]))) m)
      else if includes transcriptLower "person"
              || includes transcriptLower "visit" then
        snd (processEvent
               (mkEvent "FOLLOW_UP_SELECTED"
                  (Some (list_to_map [("option", "IN_PERSON")]))) m)
      else if includes transcriptLower "text"
              || includes transcriptLower "message" then
        snd (processEvent
               (mkEvent "FOLLOW_UP_SELECTED"
                  (Some (list_to_map [("option", "TEXT_MESSAGE")]))) m)
      else m
    else m in
  let m :=
    if currentState =? "DELIVERY_OPTIONS" then
      if includes transcriptLower "pick" || includes transcriptLower "collect" then
        snd (processEvent (mkEvent "PICKUP_SELECTED" None) m)
      else if includes transcriptLower "deliver" then
        let option :=
          if includes transcriptLower "same day"
             || includes transcriptLower "urgent"
          then "SAME_DAY"
          else if includes transcriptLower "next day" then "NEXT_DAY"
          else "STANDARD" in
        snd (processEvent
               (mkEvent "DELIVERY_SELECTED"
                  (Some (list_to_map [("option", option)]))) m)
      else m
    else m in
  (escalated, m).

(** [processAudio], as what it does to the agent: the first detected
    language is kept and passed to the machine; a response with text is
    added to the transcript and run through [processTriageLogic].  The
    calls to Gemini, LiveKit and the database are taken to succeed. *)
Definition processAudio (turn : AudioTurn) (a : Agent) : Agent :=
  let a :=
    if negb (truthy (a_language (a_state a))) then
      set_machine (setLanguage (detected_language turn) (triageMachine a))
        (set_agent_language (detected_language turn) a)
    else a in
  match response_text turn with
  | Some text =>
      if truthy (response_text turn) then
        let a := push_transcript text a in
        set_machine (snd (processTriageLogic text (triageMachine a))) a
      else a
  | None => a
  end.

(** A call: one [processAudio] after the other. *)
Definition processAudios (turns : list AudioTurn) (a : Agent) : Agent :=
  foldl (fun acc turn => processAudio turn acc) a turns.

(** The machine fed a sequence of utterances through [processTriageLogic]. *)
Definition processTranscripts (texts : list string) (m : TriageContext)
  : TriageContext :=
  foldl (fun acc text => snd (processTriageLogic text acc)) m texts.

Variable consultation_create : ConsultationData -> string.

(** [completeTriage], as the consultation it creates, if any. *)
Definition completeTriage (a : Agent) : option TriageOutcome :=
  let context := getContext (triageMachine a) in
  let fullTranscript := String.concat " " (transcript (a_state a)) in
  let extraction := extractSymptomsFromTranscript fullTranscript in
  match a_patientId (a_state a) with
  | Some patientId =>
      if truthy (a_patientId (a_state a)) then
        Some (processUTITriage consultation_create (cfg_orgId a) patientId
                {| td_symptoms := e_symptoms extraction;
                   td_redFlags := e_redFlags extraction;
                   td_followUpOption := followUpOption context;
                   td_deliveryOption := deliveryOption context |})
      else None
  | None => None
  end.

End WithMatchers.

(** The states for which [processTriageLogic] has a branch. *)
Definition handledStates : list TriageState :=
  [IDENTITY_VERIFICATION; SYMPTOM_ASSESSMENT; FOLLOW_UP_SELECTION;
   DELIVERY_OPTIONS].

(** The states a session can be in before the caller is asked how to
    proceed. *)
Definition earlyStates : list TriageState :=
  [INITIAL; IDENTITY_VERIFICATION; SYMPTOM_ASSESSMENT; RED_FLAG_CHECK].

(** The response texts of a call that [processAudio] takes up: the ones
    that are not empty. *)
Definition spokenTexts (turns : list AudioTurn) : list string :=
  List.filter (fun text => negb (text =? ""))
    (omap response_text turns).

(** An agent as the constructor leaves its state, with the given transcript
    and patient id. *)
Definition agentWith (texts : list string) (patientId : JsValue) : Agent :=
  mkAgent "org" "call" (mkAgentState "call" None texts patientId)
    (createTriageStateMachine None).

(** A machine that has been taken to FOLLOW_UP_SELECTION. *)
Definition awaitingFollowUp : TriageContext :=
  processEvents
    [ mkEvent "START_TRIAGE" None;
      mkEvent "IDENTITY_VERIFIED"
        (Some (list_to_map [("name", "Jane Doe"); ("dob", "1990-01-01")]));
      mkEvent "SYMPTOMS_COMPLETE" None;
      mkEvent "NO_RED_FLAGS" None ]
    (createTriageStateMachine None).

(** The values of [FollowUpOption] and [DeliveryOption]. *)
Definition followUpOptions : list string :=
  ["PHONE_CALL"; "IN_PERSON"; "TEXT_MESSAGE"].

Definition deliveryOptions : list string :=
  ["PICKUP"; "STANDARD"; "NEXT_DAY"; "SAME_DAY"].

(** A context whose state and two choices have the values their declared
    types allow. *)
Definition wellTyped (c : TriageContext) : Prop :=
  state c ∈ triageStates
  /\ (forall o, followUpOption c = Some o -> o ∈ followUpOptions)
  /\ (forall o, deliveryOption c = Some o -> o ∈ deliveryOptions).

End VoiceAgent.

(** ** Notions used to describe whole runs of the state machine *)

Module Runs.
Import StateMachine.

(** The least number of events after which a fresh session can be in a
    given state; a string outside the nine can only be entered from
    CONFIRMATION. *)
Definition stepsFromInitial (s : TriageState) : nat :=
  if s =? INITIAL then 0
  else if s =? IDENTITY_VERIFICATION then 1
  else if s =? SYMPTOM_ASSESSMENT then 2
  else if s =? RED_FLAG_CHECK then 3
  else if s =? FOLLOW_UP_SELECTION then 4
  else if s =? ESCALATED then 4
  else if s =? DELIVERY_OPTIONS then 5
  else if s =? CONFIRMATION then 5
  else 6.

(** No event of the list is of the given kind. *)
Definition noneOfKind (kind : string) (events : list TriageEvent) : Prop :=
  Forall (fun e => type e <> kind) events.

(** Every [previousState] carried by an event of the list is one of the
    nine states. *)
Definition targetsKnown (events : list TriageEvent) : Prop :=
  Forall (fun e => forall t, field e "previousState" = Some t ->
                             t ∈ triageStates) events.

(** Where a session that is never rewound can be, with what it has stored
    of the caller's two choices. *)
Definition choicesConsistent (c : TriageContext) : Prop :=
  (state c ∈ [INITIAL; IDENTITY_VERIFICATION; SYMPTOM_ASSESSMENT;
              RED_FLAG_CHECK; FOLLOW_UP_SELECTION; ESCALATED]
   /\ followUpOption c = None /\ deliveryOption c = None)
  \/ (state c = DELIVERY_OPTIONS
      /\ followUpOption c = Some "TEXT_MESSAGE" /\ deliveryOption c = None)
  \/ (state c ∈ [CONFIRMATION; COMPLETED]
      /\ (deliveryOption c = None \/ followUpOption c = Some "TEXT_MESSAGE")).

(** The shortest way to COMPLETED. *)
Definition shortestPath : list TriageEvent :=
  [ mkEvent "START_TRIAGE" None; mkEvent "IDENTITY_VERIFIED" None;
    mkEvent "SYMPTOMS_COMPLETE" None; mkEvent "NO_RED_FLAGS" None;
    mkEvent "FOLLOW_UP_SELECTED" None; mkEvent "CONFIRMED" None ].

End Runs.

(** ** The state machine with what the constructor can really leave behind *)

Module Runtime.
Import StateMachine Design.


(** [this.context] as it is at run time: the two collections are arrays, or
    [undefined]. *)
Record Context := mkRuntime {
  r_state : TriageState;
  r_patientId : JsValue;
  r_patientName : JsValue;
  r_patientDOB : JsValue;
  r_symptoms : option (list JsValue);
  r_redFlags : option (list JsValue);
  r_followUpOption : JsValue;
  r_deliveryOption : JsValue;
  r_language : JsValue;
  r_metadata : gmap string string
}.



Inductive Exception := TypeError.

(** How a call of [processEvent] ends: it returns the new state with a copy
    of the context, or it throws; either way [this.context] is left as
    given in the last argument. *)
Inductive Outcome :=
  | Returned (newState : TriageState) (context : Context)
  | Thrown (e : Exception) (context : Context).


(** [array.push(v)]: a [TypeError] when [array] is [undefined]. *)
Definition push (v : JsValue) (array : option (list JsValue))
  : Exception + list JsValue :=
  match array with
  | Some l => inr (l ++ [v])%list
  | None => inl TypeError
  end.

Definition with_state (s : TriageState) (c : Context) : Context :=
  mkRuntime s (r_patientId c) (r_patientName c) (r_patientDOB c)
    (r_symptoms c) (r_redFlags c) (r_followUpOption c) (r_deliveryOption c)
    (r_language c) (r_metadata c).

Definition with_identity (pid name dob : JsValue) (c : Context) : Context :=
  mkRuntime (r_state c) pid name dob (r_symptoms c) (r_redFlags c)
    (r_followUpOption c) (r_deliveryOption c) (r_language c) (r_metadata c).

Definition with_symptoms (l : list JsValue) (c : Context) : Context :=
  mkRuntime (r_state c) (r_patientId c) (r_patientName c) (r_patientDOB c)
    (Some l) (r_redFlags c) (r_followUpOption c) (r_deliveryOption c)
    (r_language c) (r_metadata c).

Definition with_redFlags (l : list JsValue) (c : Context) : Context :=
  mkRuntime (r_state c) (r_patientId c) (r_patientName c) (r_patientDOB c)
    (r_symptoms c) (Some l) (r_followUpOption c) (r_deliveryOption c)
    (r_language c) (r_metadata c).

Definition with_followUpOption (v : JsValue) (c : Context) : Context :=
  mkRuntime (r_state c) (r_patientId c) (r_patientName c) (r_patientDOB c)
    (r_symptoms c) (r_redFlags c) v (r_deliveryOption c)
    (r_language c) (r_metadata c).

Definition with_deliveryOption (v : JsValue) (c : Context) : Context :=
  mkRuntime (r_state c) (r_patientId c) (r_patientName c) (r_patientDOB c)
    (r_symptoms c) (r_redFlags c) (r_followUpOption c) v
    (r_language c) (r_metadata c).

(** The [return] at the end of [processEvent]. *)
Definition returned (c : Context) : Outcome := Returned (r_state c) c.

(** [processEvent], statement by statement.  In the two arms that push, the
    push comes first, so a throw leaves the context untouched. *)
Definition processEvent (event : TriageEvent) (c : Context) : Outcome :=
  let currentState := r_state c in
  if currentState =? INITIAL then
    if type event =? "START_TRIAGE"
    then returned (with_state IDENTITY_VERIFICATION c)
    else returned c
  else if currentState =? IDENTITY_VERIFICATION then
    if type event =? "IDENTITY_VERIFIED" then
      returned
        (with_state SYMPTOM_ASSESSMENT
           (with_identity (field event "patientId") (field event "name")
              (field event "dob") c))
    else if type event =? "IDENTITY_FAILED" then
      returned (with_state IDENTITY_VERIFICATION c)
    else returned c
  else if currentState =? SYMPTOM_ASSESSMENT then
    if type event =? "SYMPTOM_RECORDED" then
      match push (field event "symptom") (r_symptoms c) with
      | inr l => returned (with_symptoms l c)
      | inl e => Thrown e c
      end
    else if type event =? "SYMPTOMS_COMPLETE"
    then returned (with_state RED_FLAG_CHECK c)
    else returned c
  else if currentState =? RED_FLAG_CHECK then
    if type event =? "RED_FLAG_DETECTED" then
      match push (field event "redFlag") (r_redFlags c) with
      | inr l => returned (with_state ESCALATED (with_redFlags l c))
      | inl e => Thrown e c
      end
    else if type event =? "NO_RED_FLAGS"
    then returned (with_state FOLLOW_UP_SELECTION c)
    else returned c
  else if currentState =? FOLLOW_UP_SELECTION then
    if type event =? "FOLLOW_UP_SELECTED" then
      let c1 := with_followUpOption (field event "option") c in
      if strictEq (field event "option") "TEXT_MESSAGE"
      then returned (with_state DELIVERY_OPTIONS c1)
      else returned (with_state CONFIRMATION c1)
    else returned c
  else if currentState =? DELIVERY_OPTIONS then
    if type event =? "DELIVERY_SELECTED" then
      returned
        (with_state CONFIRMATION
           (with_deliveryOption (field event "option") c))
    else if type event =? "PICKUP_SELECTED" then
      returned (with_state CONFIRMATION (with_deliveryOption (Some "PICKUP") c))
    else returned c
  else if currentState =? CONFIRMATION then
    if type event =? "CONFIRMED" then returned (with_state COMPLETED c)
    else if type event =? "CHANGE_REQUESTED" then
      let previousState := field event "previousState" in
      match previousState with
      | Some target =>
          if truthy previousState then returned (with_state target c)
          else returned c
      | None => returned c
      end
    else returned c
  else if currentState =? ESCALATED then returned c
  else if currentState =? COMPLETED then returned c
  else returned c.

(** A context whose collections are arrays, as a run-time context. *)
Definition ofContext (c : TriageContext) : Context :=
  {| r_state := state c;
     r_patientId := patientId c;
     r_patientName := patientName c;
     r_patientDOB := patientDOB c;
     r_symptoms := Some (symptoms c);
     r_redFlags := Some (redFlags c);
     r_followUpOption := followUpOption c;
     r_deliveryOption := deliveryOption c;
     r_language := language c;
     r_metadata := metadata c |}.




End Runtime.

(** ** Properties of the state machine *)

Module StateMachineProps.
Import StateMachine Design.

Ltac unfold_states :=
  unfold INITIAL, IDENTITY_VERIFICATION, SYMPTOM_ASSESSMENT, RED_FLAG_CHECK,
    FOLLOW_UP_SELECTION, DELIVERY_OPTIONS, CONFIRMATION, ESCALATED, COMPLETED,
    TriageState in *.

(** Split on the first string comparison still standing in the goal, and use
    the equation it yields. *)
Ltac case_eqb :=
  match goal with
  | |- context [String.eqb ?a ?b] =>
      let E := fresh "E" in
      destruct (String.eqb_spec a b) as [E | E];
      [ try rewrite E in * | ];
      try (exfalso; unfold_states; congruence)
  end.

(** The switch, one state at a time. *)
Lemma transition_state_eq (s : TriageState) (event : TriageEvent)
    (c : TriageContext) :
  state c = s -> transition event c = transition event (set_state s c).
Proof. intros <-. destruct c; reflexivity. Qed.

Lemma transition_terminal (event : TriageEvent) (c : TriageContext) :
  terminal (state c) -> transition event c = c.
Proof.
  unfold terminal, transition; unfold_states.
  intros [H | H]; rewrite H; reflexivity.
Qed.

Lemma processEvents_terminal (events : list TriageEvent) (c : TriageContext) :
  terminal (state c) -> processEvents events c = c.
Proof.
  intros H. induction events as [| e events IH]; [reflexivity |].
  unfold processEvents in *. cbn [foldl processEvent snd].
  rewrite (transition_terminal e c H). exact IH.
Qed.

Lemma processEvents_app (xs ys : list TriageEvent) (c : TriageContext) :
  processEvents (xs ++ ys) c = processEvents ys (processEvents xs c).
Proof. unfold processEvents. apply foldl_app. Qed.

Lemma transition_unlisted (event : TriageEvent) (c : TriageContext) :
  listed (state c) (type event) = false -> transition event c = c.
Proof.
  intros H. unfold transition. cbv zeta.
  repeat (case_eqb; try reflexivity;
          try (exfalso; vm_compute in H; discriminate H)).
Qed.

(** What one call does to the two collections. *)
Lemma transition_redFlags (event : TriageEvent) (c : TriageContext) :
  transition event c =
    (if (state c =? RED_FLAG_CHECK) && (type event =? "RED_FLAG_DETECTED")
     then set_state ESCALATED (push_redFlag (field event "redFlag") c)
     else transition event c)
  /\ ((state c =? RED_FLAG_CHECK) && (type event =? "RED_FLAG_DETECTED") = false ->
      redFlags (transition event c) = redFlags c).
Proof.
  unfold transition. cbv zeta.
  repeat (case_eqb; cbn [andb]); split; intros; try reflexivity;
    try discriminate;
    repeat match goal with
      | |- context [match ?b with _ => _ end] => destruct b
      end; reflexivity.
Qed.

Lemma transition_symptoms (event : TriageEvent) (c : TriageContext) :
  symptoms (transition event c) =
    if (state c =? SYMPTOM_ASSESSMENT) && (type event =? "SYMPTOM_RECORDED")
    then (symptoms c ++ [field event "symptom"])%list
    else symptoms c.
Proof.
  unfold transition. cbv zeta.
  repeat (case_eqb; cbn [andb]); try reflexivity;
    repeat match goal with
      | |- context [match ?b with _ => _ end] => destruct b
      end; reflexivity.
Qed.

Lemma transition_redFlags_inv (event : TriageEvent) (c : TriageContext) :
  redFlags_inv c -> redFlags_inv (transition event c).
Proof.
  intros [H | [H L]].
  - destruct (transition_redFlags event c) as [Hpush Hkeep].
    destruct ((state c =? RED_FLAG_CHECK) && (type event =? "RED_FLAG_DETECTED")).
    + rewrite Hpush. right. split; [reflexivity |].
      cbn. rewrite H. reflexivity.
    + left. rewrite Hkeep; [exact H | reflexivity].
  - rewrite transition_terminal; [| left; exact H].
    right. split; assumption.
Qed.

Lemma processEvents_redFlags_inv (events : list TriageEvent)
    (c : TriageContext) :
  redFlags_inv c -> redFlags_inv (processEvents events c).
Proof.
  revert c. induction events as [| e events IH]; intros c H; [exact H |].
  change (redFlags_inv (processEvents events (transition e c))).
  apply IH, transition_redFlags_inv, H.
Qed.

(** The repository's own scenarios, run on the embedding. *)
Example test_start_triage :
  newState (fst (processEvent (ev "START_TRIAGE") (createTriageStateMachine None)))
  = IDENTITY_VERIFICATION.
Proof. reflexivity. Qed.

Example test_complete_flow :
  state (processEvents
           [ ev "START_TRIAGE";
             evWith "IDENTITY_VERIFIED" [("name", "John Doe"); ("dob", "1990-01-01")];
             evWith "SYMPTOM_RECORDED" [("symptom", "burning_pain")];
             evWith "SYMPTOM_RECORDED" [("symptom", "frequency")];
             ev "SYMPTOMS_COMPLETE";
             ev "NO_RED_FLAGS";
             evWith "FOLLOW_UP_SELECTED" [("option", "TEXT_MESSAGE")];
             evWith "DELIVERY_SELECTED" [("option", "PICKUP")];
             ev "CONFIRMED" ]
           (createTriageStateMachine None))
  = COMPLETED.
Proof. vm_compute. reflexivity. Qed.

Example test_escalate_on_red_flag :
  let c := processEvents
             [ ev "START_TRIAGE";
               evWith "IDENTITY_VERIFIED" [("name", "Jane Doe"); ("dob", "1985-05-15")];
               ev "SYMPTOMS_COMPLETE";
               evWith "RED_FLAG_DETECTED" [("redFlag", "high_temperature")] ]
             (createTriageStateMachine None) in
  state c = ESCALATED /\ needsPharmacistReview c = true /\ isComplete c = true.
Proof. vm_compute. repeat split. Qed.

(** C2.  Once a session is ESCALATED or COMPLETED, whatever events follow
    leave the context as it is: the run over [pre ++ post] ends in the
    context reached after [pre], and a single further call returns that
    context with its state. *)
Theorem terminal_idempotence (c0 : TriageContext)
    (pre post : list TriageEvent) (event : TriageEvent) :
  terminal (state (processEvents pre c0)) ->
  processEvents (pre ++ post) c0 = processEvents pre c0
  /\ processEvent event (processEvents pre c0)
     = ({| newState := state (processEvents pre c0);
           context := processEvents pre c0 |},
        processEvents pre c0).
Proof.
  intros H. split.
  - rewrite processEvents_app. apply processEvents_terminal, H.
  - unfold processEvent. rewrite (transition_terminal event _ H). reflexivity.
Qed.

Lemma terminal_idempotence_witness :
  terminal (state (processEvents (phoneCallPath ++ [ev "CONFIRMED"])
                     (createTriageStateMachine None)))
  /\ processEvents ((phoneCallPath ++ [ev "CONFIRMED"])
                     ++ [ev "START_TRIAGE"; changeToCompleted])
       (createTriageStateMachine None)
     = processEvents (phoneCallPath ++ [ev "CONFIRMED"])
         (createTriageStateMachine None).
Proof.
  assert (H : terminal (state (processEvents (phoneCallPath ++ [ev "CONFIRMED"])
                                 (createTriageStateMachine None)))).
  { right. vm_compute. reflexivity. }
  split; [exact H |].
  exact (proj1 (terminal_idempotence (createTriageStateMachine None)
                  (phoneCallPath ++ [ev "CONFIRMED"])
                  [ev "START_TRIAGE"; changeToCompleted]
                  (ev "START_TRIAGE") H)).
Defined.

(** C3, as the code has it: there is no validation step.  In
    IDENTITY_VERIFICATION an IDENTITY_VERIFIED event is taken whatever its
    payload: the state becomes SYMPTOM_ASSESSMENT and the three identity
    fields receive the payload's [patientId], [name] and [dob], each
    [undefined] when missing; the collections and the other fields are left
    alone.  In any state, the next state depends on the event only through
    its kind and the two routing properties [option] and [previousState]. *)
Theorem identity_verified_unvalidated (c : TriageContext)
    (payload : option (gmap string string)) :
  state c = IDENTITY_VERIFICATION ->
  let event := mkEvent "IDENTITY_VERIFIED" payload in
  let c' := snd (processEvent event c) in
  newState (fst (processEvent event c)) = SYMPTOM_ASSESSMENT
  /\ state c' = SYMPTOM_ASSESSMENT
  /\ patientName c' = field event "name"
  /\ patientDOB c' = field event "dob"
  /\ patientId c' = field event "patientId"
  /\ symptoms c' = symptoms c /\ redFlags c' = redFlags c
  /\ followUpOption c' = followUpOption c
  /\ deliveryOption c' = deliveryOption c
  /\ language c' = language c /\ metadata c' = metadata c
  /\ (forall (k : TriageContext) (e1 e2 : TriageEvent),
        type e1 = type e2 ->
        field e1 "option" = field e2 "option" ->
        field e1 "previousState" = field e2 "previousState" ->
        state (snd (processEvent e1 k)) = state (snd (processEvent e2 k))).
Proof.
  intros H event c'. subst event c'. unfold processEvent. cbn [fst snd newState].
  assert (T : transition (mkEvent "IDENTITY_VERIFIED" payload) c
              = set_state SYMPTOM_ASSESSMENT
                  (set_identity (field (mkEvent "IDENTITY_VERIFIED" payload) "patientId")
                     (field (mkEvent "IDENTITY_VERIFIED" payload) "name")
                     (field (mkEvent "IDENTITY_VERIFIED" payload) "dob") c)).
  { unfold transition. rewrite H. reflexivity. }
  rewrite T. repeat split.
  intros k e1 e2 Ht Ho Hp. unfold transition. cbv zeta.
  rewrite Ht, Ho, Hp.
  repeat (case_eqb; try reflexivity);
    repeat match goal with
      | |- context [match ?b with _ => _ end] => destruct b
      end; reflexivity.
Qed.

Lemma identity_verified_unvalidated_witness :
  state awaitingIdentity = IDENTITY_VERIFICATION
  /\ state (snd (processEvent (mkEvent "IDENTITY_VERIFIED" None) awaitingIdentity))
     = SYMPTOM_ASSESSMENT.
Proof.
  assert (H : state awaitingIdentity = IDENTITY_VERIFICATION)
    by (vm_compute; reflexivity).
  split; [exact H |].
  exact (proj1 (proj2 (identity_verified_unvalidated awaitingIdentity None H))).
Defined.

(** C3, as stated, fails: an IDENTITY_VERIFIED event without a name is not
    rejected; the session moves on and the date of birth is stored. *)
Lemma nameless_identity_is_accepted :
  field namelessIdentity "name" = None
  /\ state awaitingIdentity = IDENTITY_VERIFICATION
  /\ state (snd (processEvent namelessIdentity awaitingIdentity))
     = SYMPTOM_ASSESSMENT
  /\ patientDOB (snd (processEvent namelessIdentity awaitingIdentity))
     = Some "1990-01-01"
  /\ snd (processEvent namelessIdentity awaitingIdentity) <> awaitingIdentity.
Proof.
  repeat split; try (vm_compute; reflexivity).
  intros H. apply (f_equal state) in H. vm_compute in H. discriminate H.
Qed.

(** C5, as the code has it: in CONFIRMATION a CHANGE_REQUESTED event whose
    payload property [previousState] is a non-empty string moves the session
    to exactly that string, with no check of where the session has been or
    of whether the target is terminal; when the property is missing or
    empty the context stays as it is. *)
Theorem change_requested_target (c : TriageContext) (event : TriageEvent) :
  state c = CONFIRMATION ->
  type event = "CHANGE_REQUESTED" ->
  (forall target : string,
      field event "previousState" = Some target -> target <> "" ->
      snd (processEvent event c) = set_state target c
      /\ newState (fst (processEvent event c)) = target)
  /\ (truthy (field event "previousState") = false ->
      snd (processEvent event c) = c).
Proof.
  intros Hs Ht.
  assert (T : transition event c =
              match field event "previousState" with
              | Some target =>
                  if truthy (field event "previousState")
                  then set_state target c else c
              | None => c
              end).
  { unfold transition. rewrite Hs, Ht. reflexivity. }
  unfold processEvent. cbn [fst snd newState]. rewrite T. split.
  - intros target Hf Hne. rewrite Hf. cbn [truthy].
    destruct (String.eqb_spec target "") as [E | _]; [contradiction |].
    split; reflexivity.
  - intros Hf. destruct (field event "previousState"); [| reflexivity].
    rewrite Hf. reflexivity.
Qed.

Lemma change_requested_target_witness :
  state awaitingConfirmation = CONFIRMATION
  /\ snd (processEvent
            (evWith "CHANGE_REQUESTED" [("previousState", "FOLLOW_UP_SELECTION")])
            awaitingConfirmation)
     = set_state FOLLOW_UP_SELECTION awaitingConfirmation.
Proof.
  assert (Hs : state awaitingConfirmation = CONFIRMATION)
    by (vm_compute; reflexivity).
  split; [exact Hs |].
  refine (proj1 (proj1 (change_requested_target awaitingConfirmation
                          (evWith "CHANGE_REQUESTED"
                             [("previousState", "FOLLOW_UP_SELECTION")])
                          Hs eq_refl) FOLLOW_UP_SELECTION _ _)).
  - vm_compute. reflexivity.
  - discriminate.
Defined.

(** C5, as stated, fails: from CONFIRMATION a change request naming COMPLETED
    puts the session in COMPLETED, a terminal state it had never been in. *)
Lemma change_requested_reaches_unvisited_terminal :
  state awaitingConfirmation = CONFIRMATION
  /\ state (snd (processEvent changeToCompleted awaitingConfirmation))
     = COMPLETED
  /\ terminal COMPLETED
  /\ COMPLETED ∉ visitedStates phoneCallPath (createTriageStateMachine None).
Proof.
  split; [vm_compute; reflexivity |].
  split; [vm_compute; reflexivity |].
  split; [right; reflexivity |].
  assert (V : visitedStates phoneCallPath (createTriageStateMachine None)
              = [INITIAL; IDENTITY_VERIFICATION; SYMPTOM_ASSESSMENT;
                 RED_FLAG_CHECK; FOLLOW_UP_SELECTION; CONFIRMATION])
    by (vm_compute; reflexivity).
  rewrite V, !elem_of_cons, elem_of_nil. unfold_states.
  intuition discriminate.
Qed.

(** C6, as the code has it: the two collections are arrays that are appended
    to.  A session that starts with no red flags never holds more than one,
    so [redFlags] has no duplicates; [symptoms] gains the payload's
    [symptom] at its end on every SYMPTOM_RECORDED processed in
    SYMPTOM_ASSESSMENT, whether or not it is there already, and is left
    alone by every other call. *)
Theorem collections_after_events (events : list TriageEvent)
    (c0 : TriageContext) :
  redFlags c0 = [] ->
  NoDup (redFlags (processEvents events c0))
  /\ (length (redFlags (processEvents events c0)) <= 1)%nat
  /\ (forall (event : TriageEvent) (c : TriageContext),
        symptoms (snd (processEvent event c)) =
          if (state c =? SYMPTOM_ASSESSMENT) && (type event =? "SYMPTOM_RECORDED")
          then (symptoms c ++ [field event "symptom"])%list
          else symptoms c).
Proof.
  intros H0.
  assert (I : redFlags_inv (processEvents events c0))
    by (apply processEvents_redFlags_inv; left; exact H0).
  split; [| split].
  - destruct I as [I | [_ I]].
    + rewrite I. constructor.
    + destruct (redFlags (processEvents events c0)) as [| x [| y l]];
        try discriminate I.
      apply NoDup_singleton.
  - destruct I as [I | [_ I]]; rewrite I; cbn; lia.
  - intros event c. apply transition_symptoms.
Qed.

Lemma collections_after_events_witness :
  redFlags (createTriageStateMachine None) = []
  /\ NoDup (redFlags (processEvents
                        [ev "START_TRIAGE"; ev "IDENTITY_VERIFIED";
                         ev "SYMPTOMS_COMPLETE";
                         evWith "RED_FLAG_DETECTED" [("redFlag", "high_temperature")];
                         evWith "RED_FLAG_DETECTED" [("redFlag", "high_temperature")]]
                        (createTriageStateMachine None))).
Proof.
  split; [reflexivity |].
  exact (proj1 (collections_after_events _ (createTriageStateMachine None)
                  eq_refl)).
Defined.

(** C6, as stated, fails: the same symptom recorded twice is held twice. *)
Lemma repeated_symptom_is_duplicated :
  symptoms (processEvents repeatedSymptomPath (createTriageStateMachine None))
    = [Some "burning_pain"; Some "burning_pain"]
  /\ ~ NoDup (symptoms (processEvents repeatedSymptomPath
                          (createTriageStateMachine None))).
Proof.
  assert (E : symptoms (processEvents repeatedSymptomPath
                          (createTriageStateMachine None))
              = [Some "burning_pain"; Some "burning_pain"])
    by (vm_compute; reflexivity).
  split; [exact E |].
  rewrite E. intros H. apply NoDup_cons in H as [H _].
  apply H. left.
Qed.

(** C8.  [needsPharmacistReview] is true exactly when the state is ESCALATED,
    or there is a red flag, or the state is CONFIRMATION; this holds of every
    context, reachable or not. *)
Theorem needsPharmacistReview_iff (c : TriageContext) :
  needsPharmacistReview c = true <->
  state c = ESCALATED \/ redFlags c <> [] \/ state c = CONFIRMATION.
Proof.
  unfold needsPharmacistReview.
  rewrite !orb_true_iff, !String.eqb_eq, Nat.ltb_lt.
  destruct (redFlags c) as [| x l]; cbn [length].
  - split; [intros [[H | H] | H] | intros [H | [H | H]]]; auto; try lia.
    contradiction.
  - split; [intros _; right; left; discriminate |].
    intros _. left. right. lia.
Qed.

(** C9, as the code has it: [getNextQuestion] is a function of the state
    alone; it returns a prompt for each of the six states
    IDENTITY_VERIFICATION, SYMPTOM_ASSESSMENT, RED_FLAG_CHECK,
    FOLLOW_UP_SELECTION, DELIVERY_OPTIONS and CONFIRMATION, and [null] for
    every other state, which includes INITIAL as well as ESCALATED and
    COMPLETED. *)
Theorem getNextQuestion_by_state :
  (forall c1 c2 : TriageContext,
      state c1 = state c2 -> getNextQuestion c1 = getNextQuestion c2)
  /\ (forall c : TriageContext,
        is_Some (getNextQuestion c) <-> state c ∈ promptedStates)
  /\ (forall c : TriageContext,
        state c ∈ [INITIAL; ESCALATED; COMPLETED] -> getNextQuestion c = None).
Proof.
  assert (A : forall c, is_Some (getNextQuestion c) <-> state c ∈ promptedStates).
  { intros c. unfold getNextQuestion, promptedStates. cbv zeta.
    rewrite !elem_of_cons, elem_of_nil.
    repeat (case_eqb; [split; [intros _; tauto | intros _; eexists; reflexivity] |]).
    split; [intros [x Hx]; discriminate Hx | tauto]. }
  split; [| split].
  - intros c1 c2 H. unfold getNextQuestion. rewrite H. reflexivity.
  - exact A.
  - intros c H. destruct (getNextQuestion c) eqn:Q; [| reflexivity].
    exfalso. assert (S : is_Some (getNextQuestion c)) by (rewrite Q; eexists; reflexivity).
    apply A in S. unfold promptedStates in S.
    rewrite !elem_of_cons, elem_of_nil in H.
    rewrite !elem_of_cons, elem_of_nil in S.
    unfold_states. intuition congruence.
Qed.

Lemma getNextQuestion_by_state_witness :
  state (createTriageStateMachine None) = state (setLanguage "ur" (createTriageStateMachine None))
  /\ getNextQuestion (createTriageStateMachine None)
     = getNextQuestion (setLanguage "ur" (createTriageStateMachine None))
  /\ getNextQuestion awaitingConfirmation
     = Some "Is there anything else I can help you with today?".
Proof.
  split; [reflexivity |].
  split.
  - exact (proj1 getNextQuestion_by_state (createTriageStateMachine None)
             (setLanguage "ur" (createTriageStateMachine None)) eq_refl).
  - vm_compute. reflexivity.
Defined.

(** C9, as stated, fails: INITIAL is not terminal, and a fresh session in
    INITIAL has no prompt. *)
Lemma initial_state_has_no_prompt :
  state (createTriageStateMachine None) = INITIAL
  /\ ~ terminal INITIAL
  /\ getNextQuestion (createTriageStateMachine None) = None.
Proof.
  split; [reflexivity |].
  split; [| reflexivity].
  intros [H | H]; discriminate H.
Qed.

End StateMachineProps.

(** ** Exceptions of [processEvent] *)

Module RuntimeProps.
Import StateMachine Design Runtime StateMachineProps.


(** Split on the innermost test still standing in the goal. *)
Ltac case_match :=
  repeat match goal with
    | |- context [match ?b with _ => _ end] =>
        lazymatch b with
        | context [match _ with _ => _ end] => fail
        | _ => destruct b
        end
    end.

(** On a context whose collections are arrays the run-time machine does
    what [StateMachine.processEvent] does. *)
Lemma processEvent_ofContext (event : TriageEvent) (k : TriageContext) :
  Runtime.processEvent event (ofContext k)
  = returned (ofContext (snd (StateMachine.processEvent event k))).
Proof.
  destruct k as [st pid pn dob sy rf fo de la md].
  unfold Runtime.processEvent, StateMachine.processEvent, transition, returned,
    ofContext.
  cbn [snd state r_state r_symptoms r_redFlags symptoms redFlags push].
  cbv zeta.
  repeat (case_eqb; try reflexivity); case_match; reflexivity.
Qed.








End RuntimeProps.

(** ** Properties of the UTI escalation policy *)

Module UTIProps.
Import UTI Protocol.

Lemma hasSymptom_presentKind (k : SymptomType) (l : list UTISymptom) :
  hasSymptom k l = true <-> presentKind l k.
Proof.
  unfold hasSymptom, presentKind, SymptomType_eqb.
  rewrite existsb_exists, Exists_exists. split.
  - intros [s [Hin Hs]]. apply andb_true_iff in Hs as [Ht Hp].
    apply bool_decide_eq_true in Ht.
    exists s. rewrite list_elem_of_In. auto.
  - intros [s [Hin [Ht Hp]]]. exists s. rewrite <- list_elem_of_In.
    split; [exact Hin |]. apply andb_true_iff. split; [| exact Hp].
    apply bool_decide_eq_true. exact Ht.
Qed.

Lemma hasSymptom_decide (k : SymptomType) (l : list UTISymptom) :
  hasSymptom k l = bool_decide (presentKind l k).
Proof.
  destruct (hasSymptom k l) eqn:E.
  - symmetry. apply bool_decide_eq_true, hasSymptom_presentKind, E.
  - symmetry. apply bool_decide_eq_false. intros H.
    apply hasSymptom_presentKind in H. congruence.
Qed.

(** The number the code computes is the count of present main kinds. *)
Lemma mainSymptoms_presentMainCount (l : list UTISymptom) :
  mainSymptoms l = presentMainCount l.
Proof.
  unfold mainSymptoms, presentMainCount, mainSymptomKinds. cbv zeta.
  rewrite !hasSymptom_decide, !filter_cons, filter_nil.
  repeat case_decide;
    repeat match goal with
      | H : presentKind _ _ |- _ =>
          rewrite (bool_decide_eq_true_2 _ H); clear H
      | H : ~ presentKind _ _ |- _ =>
          rewrite (bool_decide_eq_false_2 _ H); clear H
      end; reflexivity.
Qed.

Lemma no_present_redFlags (l : list UTIRedFlag) :
  (forall rf, rf ∈ l -> rf_present rf = false) -> List.filter rf_present l = [].
Proof.
  induction l as [| x l IH]; intros H; [reflexivity |].
  cbn [List.filter]. rewrite (H x) by left.
  apply IH. intros rf Hrf. apply H. right. exact Hrf.
Qed.

Lemma some_present_redFlag (l : list UTIRedFlag) (rf : UTIRedFlag) :
  rf ∈ l -> rf_present rf = true ->
  (0 <? length (List.filter rf_present l))%nat = true.
Proof.
  intros Hin Hp. apply Nat.ltb_lt.
  assert (I : In rf (List.filter rf_present l)).
  { apply filter_In. split; [apply list_elem_of_In, Hin | exact Hp]. }
  destruct (List.filter rf_present l); [destruct I | cbn; lia].
Qed.

(** The repository's own two checks of the assessment. *)
Example test_escalate_on_red_flags :
  let r := assessUTISymptoms [sym burning_pain true]
             [mkRedFlag high_temperature true] in
  recommendation r = escalate /\ suitableForTreatment r = false
  /\ (0 < length (UTI.redFlags r))%nat.
Proof. cbn. repeat split. lia. Qed.

Example test_treat_suitable_symptoms :
  let r := assessUTISymptoms
             [sym burning_pain true; sym frequency true; sym cloudy_urine true]
             [] in
  recommendation r = treat /\ suitableForTreatment r = true
  /\ length (UTI.redFlags r) = 0%nat
  /\ reasoning r = "Patient presents with 3 main UTI symptoms. Suitable for Pharmacy First treatment pending pharmacist confirmation.".
Proof. vm_compute. repeat split. Qed.

(** C1.  When the red flags are not empty, that is, when at least one entry
    of [redFlags] has [present = true], the assessment recommends
    escalation and is not suitable for treatment, whatever the symptoms
    are. *)
Theorem present_red_flag_escalates (symptoms : list UTISymptom)
    (redFlags : list UTIRedFlag) :
  (exists rf, rf ∈ redFlags /\ rf_present rf = true) ->
  recommendation (assessUTISymptoms symptoms redFlags) = escalate
  /\ suitableForTreatment (assessUTISymptoms symptoms redFlags) = false.
Proof.
  intros [rf [Hin Hp]]. unfold assessUTISymptoms. cbv zeta.
  rewrite (some_present_redFlag redFlags rf Hin Hp). split; reflexivity.
Qed.

Lemma present_red_flag_escalates_witness :
  (exists rf, rf ∈ presentRedFlag /\ rf_present rf = true)
  /\ recommendation (assessUTISymptoms twoMainSymptoms presentRedFlag) = escalate
  /\ suitableForTreatment (assessUTISymptoms twoMainSymptoms presentRedFlag)
     = false.
Proof.
  assert (H : exists rf, rf ∈ presentRedFlag /\ rf_present rf = true).
  { exists (mkRedFlag high_temperature true). split; [| reflexivity].
    right. left. }
  split; [exact H |].
  exact (present_red_flag_escalates twoMainSymptoms presentRedFlag H).
Defined.

(** An entry with [present = false] is an answer, not a red flag: an array
    that holds only such entries does not stand in the way of treatment. *)
Lemma absent_red_flag_does_not_escalate :
  absentRedFlag <> []
  /\ recommendation (assessUTISymptoms twoMainSymptoms absentRedFlag) = treat
  /\ suitableForTreatment (assessUTISymptoms twoMainSymptoms absentRedFlag)
     = true.
Proof.
  split; [discriminate |].
  split; vm_compute; reflexivity.
Qed.

(** C4.  With no present red flag, the assessment follows the threshold: at
    two or more present main symptoms it recommends treatment and is
    suitable; below two it recommends escalation and is not suitable. *)
Theorem threshold_policy (symptoms : list UTISymptom)
    (redFlags : list UTIRedFlag) :
  (forall rf, rf ∈ redFlags -> rf_present rf = false) ->
  (mainSymptomThreshold <= presentMainCount symptoms ->
     recommendation (assessUTISymptoms symptoms redFlags) = treat
     /\ suitableForTreatment (assessUTISymptoms symptoms redFlags) = true)
  /\ (presentMainCount symptoms < mainSymptomThreshold ->
     recommendation (assessUTISymptoms symptoms redFlags) = escalate
     /\ suitableForTreatment (assessUTISymptoms symptoms redFlags) = false).
Proof.
  intros H. unfold assessUTISymptoms, mainSymptomThreshold. cbv zeta.
  rewrite (no_present_redFlags redFlags H), mainSymptoms_presentMainCount.
  generalize (presentMainCount symptoms). intros n.
  destruct (Nat.leb_spec 2 n) as [Hc | Hc];
    cbn; split; intros Hc'; try lia; split; reflexivity.
Qed.

Lemma threshold_policy_witness :
  (forall rf, rf ∈ absentRedFlag -> rf_present rf = false)
  /\ mainSymptomThreshold <= presentMainCount twoMainSymptoms
  /\ recommendation (assessUTISymptoms twoMainSymptoms absentRedFlag) = treat
  /\ presentMainCount [sym burning_pain true; sym general_malaise true;
                        sym frequency false]
     < mainSymptomThreshold
  /\ recommendation
       (assessUTISymptoms
          [sym burning_pain true; sym general_malaise true; sym frequency false]
          absentRedFlag)
     = escalate.
Proof.
  assert (H : forall rf, rf ∈ absentRedFlag -> rf_present rf = false).
  { intros rf Hrf. apply list_elem_of_singleton in Hrf. subst rf. reflexivity. }
  assert (G : mainSymptomThreshold <= presentMainCount twoMainSymptoms)
    by (vm_compute; lia).
  assert (L : presentMainCount [sym burning_pain true; sym general_malaise true;
                                sym frequency false] < mainSymptomThreshold)
    by (vm_compute; lia).
  split; [exact H |]. split; [exact G |].
  split; [exact (proj1 (proj1 (threshold_policy twoMainSymptoms absentRedFlag H) G)) |].
  split; [exact L |].
  exact (proj1 (proj2 (threshold_policy _ absentRedFlag H) L)).
Defined.

(** C10.  The assessment never recommends [refer]; it is suitable for
    treatment exactly when it recommends [treat]; and the red flags it
    reports are the input entries with [present = true], in input order,
    which is the empty list in the two branches taken without a present red
    flag. *)
Theorem result_shape (symptoms : list UTISymptom) (redFlags : list UTIRedFlag) :
  recommendation (assessUTISymptoms symptoms redFlags) <> refer
  /\ (suitableForTreatment (assessUTISymptoms symptoms redFlags) = true <->
      recommendation (assessUTISymptoms symptoms redFlags) = treat)
  /\ UTI.redFlags (assessUTISymptoms symptoms redFlags)
     = List.filter rf_present redFlags
  /\ ((0 <? length (List.filter rf_present redFlags))%nat = false ->
      UTI.redFlags (assessUTISymptoms symptoms redFlags) = []).
Proof.
  unfold assessUTISymptoms. cbv zeta.
  generalize (mainSymptoms symptoms). intros n.
  destruct (List.filter rf_present redFlags) as [| x l] eqn:F.
  - destruct (Nat.leb_spec 2 n) as [Hn | Hn]; cbn.
    + split; [discriminate |]. split; [tauto |]. split; reflexivity.
    + split; [discriminate |]. split; [| split; reflexivity].
      split; intros E; discriminate E.
  - cbn. split; [discriminate |]. split; [| split; [reflexivity |]].
    + split; intros E; discriminate E.
    + intros E; discriminate E.
Qed.

Lemma result_shape_witness :
  (0 <? length (List.filter rf_present absentRedFlag))%nat = false
  /\ UTI.redFlags (assessUTISymptoms twoMainSymptoms absentRedFlag) = [].
Proof.
  split; [reflexivity |].
  exact (proj2 (proj2 (proj2 (result_shape twoMainSymptoms absentRedFlag)))
           eq_refl).
Defined.

End UTIProps.

(** ** Further properties of the state machine *)

Module StateMachineRuns.
Import StateMachine Design Runs StateMachineProps.

Ltac case_match_goal :=
  repeat match goal with
    | |- context [match ?b with _ => _ end] => destruct b
    end.

Lemma processEvents_cons (e : TriageEvent) (events : list TriageEvent)
    (c : TriageContext) :
  processEvents (e :: events) c = processEvents events (transition e c).
Proof. reflexivity. Qed.






(** X2.  Nothing that was recorded is ever taken back: after any run, the
    symptoms and red flags the session had are still there, in front of
    whatever was added.  This includes runs that rewind with
    CHANGE_REQUESTED. *)
Theorem collections_only_grow (events : list TriageEvent) (c : TriageContext) :
  symptoms c `prefix_of` symptoms (processEvents events c)
  /\ redFlags c `prefix_of` redFlags (processEvents events c).
Proof.
  revert c. induction events as [| e events IH]; intros c.
  - split; reflexivity.
  - rewrite processEvents_cons. destruct (IH (transition e c)) as [IHs IHr].
    split.
    + etransitivity; [| exact IHs]. rewrite transition_symptoms.
      destruct ((state c =? SYMPTOM_ASSESSMENT) && (type e =? "SYMPTOM_RECORDED"));
        [apply prefix_app_r |]; reflexivity.
    + etransitivity; [| exact IHr].
      destruct (transition_redFlags e c) as [Hpush Hkeep].
      destruct ((state c =? RED_FLAG_CHECK) && (type e =? "RED_FLAG_DETECTED")).
      * rewrite Hpush. cbn. apply prefix_app_r. reflexivity.
      * rewrite Hkeep; reflexivity.
Qed.

(** X3.  For a session that started without red flags, the red-flag test of
    [needsPharmacistReview] adds nothing: after any run the session needs
    review exactly when it is ESCALATED or at CONFIRMATION.  So the review
    flag, raised at CONFIRMATION, is down again once the caller has
    confirmed and the session is COMPLETED. *)
Theorem review_by_state (events : list TriageEvent) (c0 : TriageContext) :
  redFlags c0 = [] ->
  (needsPharmacistReview (processEvents events c0) = true <->
     state (processEvents events c0) = ESCALATED
     \/ state (processEvents events c0) = CONFIRMATION)
  /\ (state (processEvents events c0) = COMPLETED ->
      needsPharmacistReview (processEvents events c0) = false).
Proof.
  intros H0.
  assert (I : redFlags_inv (processEvents events c0))
    by (apply processEvents_redFlags_inv; left; exact H0).
  generalize dependent (processEvents events c0). intros c I.
  unfold needsPharmacistReview. split.
  - rewrite !orb_true_iff, !String.eqb_eq, Nat.ltb_lt.
    destruct I as [I | [I _]]; [rewrite I; cbn [length] | tauto].
    split; [intros [[H | H] | H]; [tauto | lia | tauto] | tauto].
  - intros Hc. destruct I as [I | [I _]]; [| unfold_states; congruence].
    rewrite I, Hc. reflexivity.
Qed.

Lemma review_by_state_witness :
  redFlags (createTriageStateMachine None) = []
  /\ needsPharmacistReview
       (processEvents (phoneCallPath ++ [ev "CONFIRMED"])
          (createTriageStateMachine None)) = false.
Proof.
  split; [reflexivity |].
  apply (proj2 (review_by_state (phoneCallPath ++ [ev "CONFIRMED"])
                  (createTriageStateMachine None) eq_refl)).
  vm_compute. reflexivity.
Defined.

Lemma transition_without_identity (event : TriageEvent) (c : TriageContext) :
  type event <> "IDENTITY_VERIFIED" ->
  state c = INITIAL \/ state c = IDENTITY_VERIFICATION ->
  (state (transition event c) = INITIAL
   \/ state (transition event c) = IDENTITY_VERIFICATION)
  /\ transition event c = set_state (state (transition event c)) c.
Proof.
  intros Hk [Hs | Hs]; unfold transition; rewrite Hs; cbn;
    repeat (case_eqb; cbn); try contradiction;
    (split; [auto | destruct c; cbn in *; try rewrite <- Hs; reflexivity]).
Qed.

(** X4.  The identity gate.  A session in INITIAL or IDENTITY_VERIFICATION that
    is sent no IDENTITY_VERIFIED event stays in one of those two states,
    whatever else it is sent, and stores nothing: apart from the state the
    context is untouched. *)
Theorem identity_gate (events : list TriageEvent) (c : TriageContext) :
  noneOfKind "IDENTITY_VERIFIED" events ->
  state c = INITIAL \/ state c = IDENTITY_VERIFICATION ->
  (state (processEvents events c) = INITIAL
   \/ state (processEvents events c) = IDENTITY_VERIFICATION)
  /\ processEvents events c = set_state (state (processEvents events c)) c.
Proof.
  unfold noneOfKind. intros Hev. revert c.
  induction Hev as [| e events He Hev IH]; intros c Hs.
  - split; [exact Hs | destruct c; reflexivity].
  - rewrite processEvents_cons.
    destruct (transition_without_identity e c He Hs) as [Hs' Hc'].
    destruct (IH _ Hs') as [IHs IHc]. split; [exact IHs |].
    rewrite IHc. rewrite Hc' at 2. reflexivity.
Qed.

Lemma identity_gate_witness :
  noneOfKind "IDENTITY_VERIFIED"
    [ev "START_TRIAGE"; ev "SYMPTOMS_COMPLETE"; changeToCompleted; ev "CONFIRMED"]
  /\ (state (processEvents
               [ev "START_TRIAGE"; ev "SYMPTOMS_COMPLETE"; changeToCompleted;
                ev "CONFIRMED"]
               (createTriageStateMachine None)) = INITIAL
      \/ state (processEvents
                  [ev "START_TRIAGE"; ev "SYMPTOMS_COMPLETE"; changeToCompleted;
                   ev "CONFIRMED"]
                  (createTriageStateMachine None)) = IDENTITY_VERIFICATION).
Proof.
  assert (H : noneOfKind "IDENTITY_VERIFIED"
                [ev "START_TRIAGE"; ev "SYMPTOMS_COMPLETE"; changeToCompleted;
                 ev "CONFIRMED"]).
  { repeat constructor; discriminate. }
  split; [exact H |].
  exact (proj1 (identity_gate _ (createTriageStateMachine None) H
                  (or_introl eq_refl))).
Defined.

Lemma stepsFromInitial_le_6 (s : TriageState) : stepsFromInitial s <= 6.
Proof. unfold stepsFromInitial. repeat (case_eqb; try lia). Qed.

Lemma transition_steps (event : TriageEvent) (c : TriageContext) :
  stepsFromInitial (state (transition event c)) <= S (stepsFromInitial (state c)).
Proof.
  unfold transition. cbv zeta.
  repeat (case_eqb; try lia); case_match_goal;
    try lia; cbn [state set_state push_symptom];
    repeat match goal with
      | E : state c = _ |- _ => rewrite E; clear E
      end;
    try (cbn; lia).
  pose proof (stepsFromInitial_le_6 s). cbn. lia.
Qed.

(** X5.  There is no short cut to COMPLETED: a session that is in INITIAL cannot
    be in a state before the number of events that state is away from
    INITIAL, so COMPLETED takes at least six events; and six suffice. *)
Theorem completed_takes_six_events (events : list TriageEvent)
    (c : TriageContext) :
  state c = INITIAL ->
  stepsFromInitial (state (processEvents events c)) <= length events
  /\ (state (processEvents events c) = COMPLETED -> 6 <= length events)
  /\ state (processEvents shortestPath c) = COMPLETED.
Proof.
  intros Hs.
  assert (G : forall evs k,
             stepsFromInitial (state (processEvents evs k))
             <= stepsFromInitial (state k) + length evs).
  { induction evs as [| e evs IH]; intros k; [cbn; lia |].
    rewrite processEvents_cons. cbn [length].
    pose proof (IH (transition e k)). pose proof (transition_steps e k). lia. }
  assert (B : stepsFromInitial (state (processEvents events c)) <= length events).
  { pose proof (G events c) as B. rewrite Hs in B. exact B. }
  split; [exact B |]. split.
  - intros Hc. rewrite Hc in B. exact B.
  - destruct c; cbn in Hs; subst. vm_compute. reflexivity.
Qed.

Lemma completed_takes_six_events_witness :
  state (createTriageStateMachine None) = INITIAL
  /\ (state (processEvents (phoneCallPath ++ [ev "CONFIRMED"])
               (createTriageStateMachine None)) = COMPLETED ->
      6 <= length (phoneCallPath ++ [ev "CONFIRMED"])).
Proof.
  split; [reflexivity |].
  exact (proj1 (proj2 (completed_takes_six_events
                         (phoneCallPath ++ [ev "CONFIRMED"])
                         (createTriageStateMachine None) eq_refl))).
Defined.

Lemma transition_unknown_state (event : TriageEvent) (c : TriageContext) :
  state c ∉ triageStates -> transition event c = c.
Proof.
  intros H. unfold transition. cbv zeta.
  repeat (case_eqb; [exfalso; apply H; solve [repeat constructor] |]).
  reflexivity.
Qed.

(** X6.  A state outside the nine is a trap.  The switch has no default arm, so
    a session whose state is any other string (CHANGE_REQUESTED can put it
    there) ignores every event from then on; it is not complete and has no
    next question. *)
Theorem unknown_state_is_a_trap (events : list TriageEvent)
    (c : TriageContext) :
  state c ∉ triageStates ->
  processEvents events c = c
  /\ isComplete c = false
  /\ getNextQuestion c = None.
Proof.
  intros H. split; [| split].
  - induction events as [| e events IH]; [reflexivity |].
    rewrite processEvents_cons, transition_unknown_state; assumption.
  - unfold isComplete.
    repeat (case_eqb; [exfalso; apply H; solve [repeat constructor] |]).
    reflexivity.
  - unfold getNextQuestion. cbv zeta.
    repeat (case_eqb; [exfalso; apply H; solve [repeat constructor] |]).
    reflexivity.
Qed.

Lemma unknown_state_is_a_trap_witness :
  (state (snd (processEvent
                 (evWith "CHANGE_REQUESTED" [("previousState", "SYMPTOMS")])
                 awaitingConfirmation)) ∉ triageStates)
  /\ processEvents (phoneCallPath ++ [ev "CONFIRMED"])
       (snd (processEvent
               (evWith "CHANGE_REQUESTED" [("previousState", "SYMPTOMS")])
               awaitingConfirmation))
     = snd (processEvent
              (evWith "CHANGE_REQUESTED" [("previousState", "SYMPTOMS")])
              awaitingConfirmation).
Proof.
  assert (H : state (snd (processEvent
                (evWith "CHANGE_REQUESTED" [("previousState", "SYMPTOMS")])
                awaitingConfirmation)) ∉ triageStates).
  { assert (E : state (snd (processEvent
                (evWith "CHANGE_REQUESTED" [("previousState", "SYMPTOMS")])
                awaitingConfirmation)) = "SYMPTOMS") by (vm_compute; reflexivity).
    rewrite E. unfold triageStates. rewrite !elem_of_cons, elem_of_nil.
    unfold_states. intuition discriminate. }
  split; [exact H |].
  exact (proj1 (unknown_state_is_a_trap _ _ H)).
Defined.

Lemma transition_known_state (event : TriageEvent) (c : TriageContext) :
  (forall t, field event "previousState" = Some t -> t ∈ triageStates) ->
  state c ∈ triageStates -> state (transition event c) ∈ triageStates.
Proof.
  intros Ht Hs. unfold transition. cbv zeta.
  destruct (field event "previousState") as [t |] eqn:F;
    [pose proof (Ht t eq_refl) as Hknown |];
    repeat case_eqb; case_match_goal; cbn [state set_state push_symptom];
    try solve [repeat constructor];
    try (match goal with E : state c = _ |- _ => rewrite E end;
         solve [repeat constructor]);
    assumption.
Qed.

(** X7.  The state stays one of the nine as long as every CHANGE_REQUESTED names
    one of them: a session that starts in a known state and is sent only
    events whose [previousState], if any, is a known state, is in a known
    state after every run. *)
Theorem state_stays_known (events : list TriageEvent) (c : TriageContext) :
  targetsKnown events ->
  state c ∈ triageStates ->
  state (processEvents events c) ∈ triageStates.
Proof.
  unfold targetsKnown. intros Hev. revert c.
  induction Hev as [| e events He Hev IH]; intros c Hs; [exact Hs |].
  rewrite processEvents_cons. apply IH, transition_known_state; assumption.
Qed.

Lemma state_stays_known_witness :
  targetsKnown (phoneCallPath ++ [changeToCompleted])
  /\ state (processEvents (phoneCallPath ++ [changeToCompleted])
              (createTriageStateMachine None)) ∈ triageStates.
Proof.
  assert (H : targetsKnown (phoneCallPath ++ [changeToCompleted])).
  { unfold targetsKnown, phoneCallPath. cbn [app].
    repeat (apply List.Forall_cons;
            [intros t Ht; vm_compute in Ht;
             first [discriminate Ht
                   | injection Ht as <-; solve [repeat constructor]] |]).
    apply List.Forall_nil. }
  split; [exact H |].
  apply (state_stays_known _ _ H). solve [repeat constructor].
Defined.

Ltac choices_done :=
  cbn;
  first
    [ left; split; [solve [repeat constructor] | split; congruence]
    | right; left; split; [reflexivity | split; congruence]
    | right; right; split;
      [solve [repeat constructor] | first [left; congruence | right; congruence]] ].

Lemma transition_choicesConsistent (event : TriageEvent) (c : TriageContext) :
  type event <> "CHANGE_REQUESTED" ->
  choicesConsistent c -> choicesConsistent (transition event c).
Proof.
  intros Hk HI. destruct c as [st pid pn dob sy rf fo de la md].
  unfold choicesConsistent in HI. cbn [state followUpOption deliveryOption] in HI.
  unfold choicesConsistent.
  destruct HI as [(Hs & Hf & Hd) | [(Hs & Hf & Hd) | (Hs & Hd)]].
  - rewrite !elem_of_cons, elem_of_nil in Hs.
    destruct Hs as [Hs | [Hs | [Hs | [Hs | [Hs | [Hs | []]]]]]];
      subst st fo de; unfold transition; cbn;
      repeat (case_eqb; cbn); try choices_done.
    destruct (field event "option") as [o |]; cbn; [| choices_done].
    destruct (String.eqb_spec o "TEXT_MESSAGE"); subst; choices_done.
  - subst st fo de. unfold transition; cbn.
    repeat (case_eqb; cbn); choices_done.
  - rewrite !elem_of_cons, elem_of_nil in Hs.
    destruct Hs as [Hs | [Hs | []]]; subst st; unfold transition; cbn;
      repeat (case_eqb; cbn); try contradiction;
      destruct Hd; subst; choices_done.
Qed.

(** X8.  The two choices hang together in a session that is never rewound.  From
    a fresh session and without any CHANGE_REQUESTED event, the session is
    at DELIVERY_OPTIONS only after the caller chose TEXT_MESSAGE, and a
    delivery option is stored only for a caller who chose TEXT_MESSAGE and
    only once the session is at CONFIRMATION or COMPLETED. *)
Theorem delivery_only_after_text_message (events : list TriageEvent) :
  noneOfKind "CHANGE_REQUESTED" events ->
  (state (processEvents events (createTriageStateMachine None)) = DELIVERY_OPTIONS ->
     followUpOption (processEvents events (createTriageStateMachine None))
     = Some "TEXT_MESSAGE")
  /\ (deliveryOption (processEvents events (createTriageStateMachine None)) <> None ->
      followUpOption (processEvents events (createTriageStateMachine None))
      = Some "TEXT_MESSAGE"
      /\ (state (processEvents events (createTriageStateMachine None)) = CONFIRMATION
          \/ state (processEvents events (createTriageStateMachine None)) = COMPLETED)).
Proof.
  intros Hev.
  assert (I : choicesConsistent (processEvents events (createTriageStateMachine None))).
  { assert (I0 : choicesConsistent (createTriageStateMachine None)).
    { left. split; [left | split; reflexivity]. }
    revert I0. generalize (createTriageStateMachine None).
    unfold noneOfKind in Hev.
    induction Hev as [| e evs He Hev IH]; intros c I0; [exact I0 |].
    rewrite processEvents_cons. apply IH, transition_choicesConsistent; assumption. }
  generalize dependent (processEvents events (createTriageStateMachine None)).
  intros c I. unfold choicesConsistent in I.
  destruct I as [(Hs & Hf & Hd) | [(Hs & Hf & Hd) | (Hs & Hd)]].
  - split.
    + intros E. rewrite E in Hs. rewrite !elem_of_cons, elem_of_nil in Hs.
      unfold_states. intuition discriminate.
    + intros N. contradiction.
  - split; [intros _; exact Hf | intros N; contradiction].
  - rewrite !elem_of_cons, elem_of_nil in Hs. split.
    + intros E. rewrite E in Hs. unfold_states. intuition discriminate.
    + intros N. destruct Hd as [Hd | Hd]; [contradiction |]. tauto.
Qed.

Lemma delivery_only_after_text_message_witness :
  noneOfKind "CHANGE_REQUESTED"
    [ev "START_TRIAGE"; ev "IDENTITY_VERIFIED"; ev "SYMPTOMS_COMPLETE";
     ev "NO_RED_FLAGS"; evWith "FOLLOW_UP_SELECTED" [("option", "TEXT_MESSAGE")]]
  /\ followUpOption
       (processEvents
          [ev "START_TRIAGE"; ev "IDENTITY_VERIFIED"; ev "SYMPTOMS_COMPLETE";
           ev "NO_RED_FLAGS";
           evWith "FOLLOW_UP_SELECTED" [("option", "TEXT_MESSAGE")]]
          (createTriageStateMachine None))
     = Some "TEXT_MESSAGE".
Proof.
  assert (H : noneOfKind "CHANGE_REQUESTED"
    [ev "START_TRIAGE"; ev "IDENTITY_VERIFIED"; ev "SYMPTOMS_COMPLETE";
     ev "NO_RED_FLAGS"; evWith "FOLLOW_UP_SELECTED" [("option", "TEXT_MESSAGE")]]).
  { repeat (apply List.Forall_cons; [discriminate |]). apply List.Forall_nil. }
  split; [exact H |].
  apply (proj1 (delivery_only_after_text_message _ H)).
  vm_compute. reflexivity.
Defined.

End StateMachineRuns.

(** ** Properties of the text helpers *)

Module TextProps.
Import Text.

Lemma append_assoc (a b c : string) : ((a ++ b) ++ c = a ++ (b ++ c))%string.
Proof.
  induction a as [| x a IH]; [reflexivity |].
  change (String x ((a ++ b) ++ c) = String x (a ++ (b ++ c)))%string.
  f_equal. exact IH.
Qed.

Lemma toLowerChar_idem (c : ascii) : toLowerChar (toLowerChar c) = toLowerChar c.
Proof.
  destruct c as [b0 b1 b2 b3 b4 b5 b6 b7].
  destruct b0, b1, b2, b3, b4, b5, b6, b7; vm_compute; reflexivity.
Qed.

Lemma toLowerCase_idem (s : string) : toLowerCase (toLowerCase s) = toLowerCase s.
Proof.
  induction s as [| c s IH]; cbn; [reflexivity |].
  rewrite toLowerChar_idem, IH. reflexivity.
Qed.

Lemma toLowerCase_app (a b : string) :
  toLowerCase (a ++ b) = (toLowerCase a ++ toLowerCase b)%string.
Proof.
  induction a as [| c a IH]; [reflexivity |].
  change (String (toLowerChar c) (toLowerCase (a ++ b))
          = String (toLowerChar c) (toLowerCase a ++ toLowerCase b))%string.
  f_equal. exact IH.
Qed.

Lemma toLowerCase_length (s : string) :
  String.length (toLowerCase s) = String.length s.
Proof. induction s as [| c s IH]; cbn; [reflexivity | rewrite IH; reflexivity]. Qed.

(** [String.prefix], as a statement about the text. *)
Lemma prefix_iff (k s : string) :
  String.prefix k s = true <-> exists r, s = (k ++ r)%string.
Proof.
  revert k. induction s as [| c s IH]; intros [| d k]; cbn.
  - split; [exists ""; reflexivity | reflexivity].
  - split; [discriminate | intros [r Hr]; discriminate Hr].
  - split; [exists (String c s); reflexivity | reflexivity].
  - destruct (ascii_dec d c) as [-> | N].
    + rewrite IH. split; intros [r Hr]; exists r;
        [rewrite Hr; reflexivity | injection Hr; auto].
    + split; [discriminate | intros [r Hr]; injection Hr; congruence].
Qed.

(** [includes], as a statement about the text: the needle sits between a
    part before and a part after. *)
Lemma includes_iff (s k : string) :
  includes s k = true <-> exists a b, s = (a ++ k ++ b)%string.
Proof.
  induction s as [| c s IH].
  - cbn [includes]. rewrite orb_false_r, prefix_iff. split.
    + intros [r Hr]. exists "", r. exact Hr.
    + intros [[| x a] [b Hb]]; [exists b; exact Hb | discriminate Hb].
  - cbn [includes]. rewrite orb_true_iff, prefix_iff, IH. split.
    + intros [[r Hr] | [a [b Hab]]].
      * exists "", r. exact Hr.
      * exists (String c a), b. rewrite Hab. reflexivity.
    + intros [[| x a] [b Hb]].
      * left. exists b. exact Hb.
      * right. exists a, b. injection Hb; auto.
Qed.

Lemma includes_embed (a s b k : string) :
  includes s k = true -> includes (a ++ s ++ b) k = true.
Proof.
  rewrite !includes_iff. intros [x [y ->]].
  exists (a ++ x)%string, (y ++ b)%string.
  rewrite !append_assoc. reflexivity.
Qed.

Lemma append_length (a b : string) :
  String.length (a ++ b) = String.length a + String.length b.
Proof.
  induction a as [| c a IH]; [reflexivity |].
  change (S (String.length (a ++ b)) = S (String.length a + String.length b)).
  f_equal. exact IH.
Qed.

Lemma includes_length (s k : string) :
  includes s k = true -> String.length k <= String.length s.
Proof.
  rewrite includes_iff. intros [a [b ->]]. rewrite !append_length. lia.
Qed.

Lemma matchAlt_embed (alternatives : list string) (a s b : string) :
  matchAlt alternatives s = true -> matchAlt alternatives (a ++ s ++ b) = true.
Proof.
  unfold matchAlt. rewrite !existsb_exists.
  intros [k [Hin Hk]]. exists k. split; [exact Hin |].
  apply includes_embed, Hk.
Qed.

Lemma matchAlt_short (alternatives : list string) (s : string) :
  Forall (fun k => String.length s < String.length k) alternatives ->
  matchAlt alternatives s = false.
Proof.
  intros H. unfold matchAlt. apply not_true_is_false. intros E.
  apply existsb_exists in E as [k [Hin Hk]].
  apply includes_length in Hk.
  rewrite Forall_forall in H. apply list_elem_of_In in Hin.
  specialize (H k Hin). lia.
Qed.

Lemma append_nil_r (a : string) : (a ++ "")%string = a.
Proof.
  induction a as [| c a IH]; [reflexivity |].
  change (String c (a ++ "") = String c a)%string. f_equal. exact IH.
Qed.

Lemma concat_embed (sep u : string) (l : list string) :
  u ∈ l -> exists a b, String.concat sep l = (a ++ u ++ b)%string.
Proof.
  induction l as [| x l IH]; intros Hin; [inversion Hin |].
  apply elem_of_cons in Hin as [-> | Hin].
  - destruct l as [| y l].
    + exists "", "". change (x = x ++ "")%string.
      symmetry. apply append_nil_r.
    + exists "", (sep ++ String.concat sep (y :: l))%string. reflexivity.
  - destruct (IH Hin) as [a [b Hab]]. destruct l as [| y l]; [inversion Hin |].
    exists (x ++ sep ++ a)%string, b.
    change (String.concat sep (x :: y :: l))
      with (x ++ sep ++ String.concat sep (y :: l))%string.
    rewrite Hab, !append_assoc. reflexivity.
Qed.

End TextProps.

(** ** Properties of the rest of the UTI worker *)

Module UTIWorkerProps.
Import UTI Text UTIWorker TextProps.

Ltac case_tests :=
  repeat match goal with
    | |- context [matchAlt ?alts ?s] => destruct (matchAlt alts s)
    end.

Ltac sublist_done :=
  solve [repeat first [apply sublist_nil | apply sublist_skip | apply sublist_cons]].

Lemma elem_of_pushIf {A : Type} (cond : bool) (x y : A) (l : list A) :
  x ∈ pushIf cond y l <-> x ∈ l \/ (cond = true /\ x = y).
Proof.
  unfold pushIf. destruct cond.
  - rewrite elem_of_app, list_elem_of_singleton. intuition.
  - intuition discriminate.
Qed.

Lemma sublist_elem {A : Type} (l1 l2 : list A) (x : A) :
  l1 `sublist_of` l2 -> x ∈ l1 -> x ∈ l2.
Proof.
  induction 1 as [| y l1 l2 _ IH | y l1 l2 _ IH]; intros Hx.
  - exact Hx.
  - apply elem_of_cons in Hx as [-> | Hx]; [left | right; auto].
  - right. auto.
Qed.

Lemma extract_symptoms_sublist (t : string) :
  e_symptoms (extractSymptomsFromTranscript t) `sublist_of` extractableSymptoms.
Proof.
  unfold extractSymptomsFromTranscript, extractableSymptoms. cbn [e_symptoms].
  case_tests; cbn; sublist_done.
Qed.

Lemma extract_redFlags_sublist (t : string) :
  e_redFlags (extractSymptomsFromTranscript t) `sublist_of` extractableRedFlags.
Proof.
  unfold extractSymptomsFromTranscript, extractableRedFlags. cbn [e_redFlags].
  case_tests; cbn; sublist_done.
Qed.

Lemma extractableSymptoms_NoDup : NoDup extractableSymptoms.
Proof.
  unfold extractableSymptoms.
  repeat (apply NoDup_cons; split;
          [rewrite ?elem_of_cons, elem_of_nil; intuition discriminate |]).
  apply NoDup_nil. exact I.
Qed.

Lemma extractableRedFlags_NoDup : NoDup extractableRedFlags.
Proof.
  unfold extractableRedFlags.
  repeat (apply NoDup_cons; split;
          [rewrite ?elem_of_cons, elem_of_nil; intuition discriminate |]).
  apply NoDup_nil. exact I.
Qed.

(** X9.  What the extractor can return.  Its symptoms are some of the four main
    symptoms and its red flags some of seven, each at most once, in the
    order of the tests and all marked present; it never reports
    [general_malaise] or [immunocompromised]. *)
Theorem extraction_shape (t : string) :
  e_symptoms (extractSymptomsFromTranscript t) `sublist_of` extractableSymptoms
  /\ e_redFlags (extractSymptomsFromTranscript t) `sublist_of` extractableRedFlags
  /\ NoDup (e_symptoms (extractSymptomsFromTranscript t))
  /\ NoDup (e_redFlags (extractSymptomsFromTranscript t))
  /\ (forall s, s ∈ e_symptoms (extractSymptomsFromTranscript t) ->
        s_present s = true /\ s_type s <> general_malaise)
  /\ (forall rf, rf ∈ e_redFlags (extractSymptomsFromTranscript t) ->
        rf_present rf = true /\ rf_type rf <> immunocompromised).
Proof.
  pose proof (extract_symptoms_sublist t) as Hs.
  pose proof (extract_redFlags_sublist t) as Hr.
  split; [exact Hs |]. split; [exact Hr |].
  split; [exact (sublist_NoDup _ _ extractableSymptoms_NoDup Hs) |].
  split; [exact (sublist_NoDup _ _ extractableRedFlags_NoDup Hr) |].
  split.
  - intros s Hin. apply (sublist_elem _ _ _ Hs) in Hin.
    unfold extractableSymptoms in Hin.
    rewrite !elem_of_cons, elem_of_nil in Hin.
    destruct Hin as [-> | [-> | [-> | [-> | []]]]]; split;
      try reflexivity; discriminate.
  - intros rf Hin. apply (sublist_elem _ _ _ Hr) in Hin.
    unfold extractableRedFlags in Hin.
    rewrite !elem_of_cons, elem_of_nil in Hin.
    destruct Hin as [-> | [-> | [-> | [-> | [-> | [-> | [-> | []]]]]]]]; split;
      try reflexivity; discriminate.
Qed.

Lemma extraction_shape_witness :
  mkRedFlag kidney_pain true
    ∈ e_redFlags (extractSymptomsFromTranscript "pain in my lower back")
  /\ rf_present (mkRedFlag kidney_pain true) = true
  /\ rf_type (mkRedFlag kidney_pain true) <> immunocompromised.
Proof.
  assert (H : mkRedFlag kidney_pain true
                ∈ e_redFlags (extractSymptomsFromTranscript
                                "pain in my lower back")).
  { vm_compute. left. }
  split; [exact H |].
  exact (proj2 (proj2 (proj2 (proj2 (proj2
           (extraction_shape "pain in my lower back"))))) _ H).
Defined.

(** X10.  The extractor does not tell capitals from small letters: transcripts
    with the same lower-case form give the same extraction, and lowering a
    transcript first changes nothing. *)
Theorem extraction_ignores_case (t1 t2 : string) :
  (toLowerCase t1 = toLowerCase t2 ->
   extractSymptomsFromTranscript t1 = extractSymptomsFromTranscript t2)
  /\ extractSymptomsFromTranscript (toLowerCase t1)
     = extractSymptomsFromTranscript t1.
Proof.
  split.
  - intros H. unfold extractSymptomsFromTranscript. rewrite H. reflexivity.
  - unfold extractSymptomsFromTranscript. rewrite toLowerCase_idem. reflexivity.
Qed.

Lemma extraction_ignores_case_witness :
  toLowerCase "It BURNS" = toLowerCase "it burns"
  /\ extractSymptomsFromTranscript "It BURNS"
     = extractSymptomsFromTranscript "it burns".
Proof.
  split; [vm_compute; reflexivity |].
  apply (proj1 (extraction_ignores_case "It BURNS" "it burns")).
  vm_compute. reflexivity.
Defined.

Lemma matchAlt_lower_embed (alternatives : list string) (a t b : string) :
  matchAlt alternatives (toLowerCase t) = true ->
  matchAlt alternatives (toLowerCase (a ++ t ++ b)) = true.
Proof.
  intros H. rewrite !toLowerCase_app. apply matchAlt_embed, H.
Qed.

Lemma extract_symptoms_embed (a t b : string) (s : UTISymptom) :
  s ∈ e_symptoms (extractSymptomsFromTranscript t) ->
  s ∈ e_symptoms (extractSymptomsFromTranscript (a ++ t ++ b)).
Proof.
  unfold extractSymptomsFromTranscript. cbn [e_symptoms].
  rewrite !elem_of_pushIf, !elem_of_nil.
  intros H; repeat destruct H as [H | H]; try contradiction;
    destruct H as [H ->]; apply (matchAlt_lower_embed _ a t b) in H;
    rewrite H; tauto.
Qed.

Lemma extract_redFlags_embed (a t b : string) (rf : UTIRedFlag) :
  rf ∈ e_redFlags (extractSymptomsFromTranscript t) ->
  rf ∈ e_redFlags (extractSymptomsFromTranscript (a ++ t ++ b)).
Proof.
  unfold extractSymptomsFromTranscript. cbn [e_redFlags].
  rewrite !elem_of_pushIf, !elem_of_nil.
  intros H; repeat destruct H as [H | H]; try contradiction;
    destruct H as [H ->]; apply (matchAlt_lower_embed _ a t b) in H;
    rewrite H; tauto.
Qed.

Lemma assess_present_redFlags (symptoms : list UTISymptom)
    (redFlags : list UTIRedFlag) :
  List.filter rf_present redFlags = redFlags -> redFlags <> [] ->
  recommendation (assessUTISymptoms symptoms redFlags) = escalate.
Proof.
  intros Hf Hne. unfold assessUTISymptoms. cbv zeta. rewrite Hf.
  destruct redFlags; [contradiction | reflexivity].
Qed.

(** X11.  More text never hides a finding: whatever the extractor finds in a
    transcript it also finds in any longer text that contains it. *)
Theorem extraction_monotone (a t b : string) :
  (forall s, s ∈ e_symptoms (extractSymptomsFromTranscript t) ->
             s ∈ e_symptoms (extractSymptomsFromTranscript (a ++ t ++ b)))
  /\ (forall rf, rf ∈ e_redFlags (extractSymptomsFromTranscript t) ->
                 rf ∈ e_redFlags (extractSymptomsFromTranscript (a ++ t ++ b))).
Proof.
  split; [apply extract_symptoms_embed | apply extract_redFlags_embed].
Qed.

Lemma extraction_monotone_witness :
  mkRedFlag kidney_pain true
    ∈ e_redFlags (extractSymptomsFromTranscript "my back")
  /\ mkRedFlag kidney_pain true
       ∈ e_redFlags (extractSymptomsFromTranscript
                       ("It hurts in " ++ "my back" ++ " since Monday")).
Proof.
  assert (H : mkRedFlag kidney_pain true
                ∈ e_redFlags (extractSymptomsFromTranscript "my back")).
  { vm_compute. left. }
  split; [exact H |].
  exact (proj2 (extraction_monotone "It hurts in " "my back" " since Monday")
           _ H).
Defined.

(** X12.  A transcript of fewer than three characters yields nothing: every
    keyword has at least three. *)
Theorem extraction_of_short_text (t : string) :
  String.length t < 3 ->
  extractSymptomsFromTranscript t = {| e_symptoms := []; e_redFlags := [] |}.
Proof.
  intros H. rewrite <- toLowerCase_length in H.
  unfold extractSymptomsFromTranscript.
  rewrite !matchAlt_short; [reflexivity | ..];
    repeat (apply List.Forall_cons; [cbn; lia |]); apply List.Forall_nil.
Qed.

Lemma extraction_of_short_text_witness :
  String.length "ow" < 3
  /\ extractSymptomsFromTranscript "ow"
     = {| e_symptoms := []; e_redFlags := [] |}.
Proof.
  assert (H : String.length "ow" < 3) by (cbn; lia).
  split; [exact H |]. exact (extraction_of_short_text "ow" H).
Defined.

Lemma filter_all_present (l : list UTIRedFlag) :
  (forall rf, rf ∈ l -> rf_present rf = true) -> List.filter rf_present l = l.
Proof.
  induction l as [| x l IH]; intros H; [reflexivity |].
  cbn [List.filter]. rewrite (H x) by left. f_equal.
  apply IH. intros rf Hrf. apply H. right. exact Hrf.
Qed.

Lemma extract_redFlags_present (t : string) :
  List.filter rf_present (e_redFlags (extractSymptomsFromTranscript t))
  = e_redFlags (extractSymptomsFromTranscript t).
Proof.
  apply filter_all_present. intros rf Hin.
  apply (sublist_elem _ _ _ (extract_redFlags_sublist t)) in Hin.
  unfold extractableRedFlags in Hin. rewrite !elem_of_cons, elem_of_nil in Hin.
  destruct Hin as [-> | [-> | [-> | [-> | [-> | [-> | [-> | []]]]]]]];
    reflexivity.
Qed.

Lemma extract_mainSymptoms (t : string) :
  mainSymptoms (e_symptoms (extractSymptomsFromTranscript t))
  = length (e_symptoms (extractSymptomsFromTranscript t)).
Proof.
  unfold extractSymptomsFromTranscript. cbn [e_symptoms].
  case_tests; reflexivity.
Qed.

(** X13.  The extractor and the assessment together.  When the extractor reports
    any red flag the assessment escalates and reports the same red flags;
    the assessment recommends treatment exactly when the extractor reports
    no red flag and at least two symptoms. *)
Theorem assessment_of_extraction (t : string) :
  (e_redFlags (extractSymptomsFromTranscript t) <> [] ->
     recommendation
       (assessUTISymptoms (e_symptoms (extractSymptomsFromTranscript t))
          (e_redFlags (extractSymptomsFromTranscript t))) = escalate
     /\ UTI.redFlags
          (assessUTISymptoms (e_symptoms (extractSymptomsFromTranscript t))
             (e_redFlags (extractSymptomsFromTranscript t)))
        = e_redFlags (extractSymptomsFromTranscript t))
  /\ (recommendation
        (assessUTISymptoms (e_symptoms (extractSymptomsFromTranscript t))
           (e_redFlags (extractSymptomsFromTranscript t))) = treat
      <-> e_redFlags (extractSymptomsFromTranscript t) = []
          /\ 2 <= length (e_symptoms (extractSymptomsFromTranscript t))).
Proof.
  unfold assessUTISymptoms. cbv zeta.
  rewrite extract_redFlags_present, extract_mainSymptoms.
  generalize (e_symptoms (extractSymptomsFromTranscript t)).
  generalize (e_redFlags (extractSymptomsFromTranscript t)).
  intros r l. destruct r as [| rf r].
  - split; [intros N; contradiction |].
    destruct (Nat.leb_spec 2 (length l)) as [Hn | Hn]; cbn.
    + tauto.
    + split; [discriminate | intros [_ H]; lia].
  - cbn. split; [intros _; split; reflexivity |].
    split; [discriminate | intros [H _]; discriminate H].
Qed.

Lemma assessment_of_extraction_witness :
  e_redFlags (extractSymptomsFromTranscript "it burns and my back hurts") <> []
  /\ recommendation
       (assessUTISymptoms
          (e_symptoms (extractSymptomsFromTranscript "it burns and my back hurts"))
          (e_redFlags (extractSymptomsFromTranscript "it burns and my back hurts")))
     = escalate.
Proof.
  assert (H : e_redFlags (extractSymptomsFromTranscript
                            "it burns and my back hurts") <> [])
    by (vm_compute; discriminate).
  split; [exact H |].
  exact (proj1 (proj1 (assessment_of_extraction "it burns and my back hurts") H)).
Defined.

(** X14.  The extractor and the decision tree agree on what can be found: every
    symptom and red flag the extractor reports is asked about in the tree,
    under the same id and kind, and every question of the tree can be
    answered by some transcript in which the extractor finds it. *)
Theorem extraction_matches_decision_tree :
  (forall t s, s ∈ e_symptoms (extractSymptomsFromTranscript t) ->
     exists q, q ∈ getUTIDecisionTree
               /\ id q = SymptomType_name (s_type s) /\ q_type q = symptom)
  /\ (forall t rf, rf ∈ e_redFlags (extractSymptomsFromTranscript t) ->
     exists q, q ∈ getUTIDecisionTree
               /\ id q = RedFlagType_name (rf_type rf) /\ q_type q = red_flag)
  /\ (forall q, q ∈ getUTIDecisionTree ->
     exists t,
       match q_type q with
       | symptom =>
           exists s, s ∈ e_symptoms (extractSymptomsFromTranscript t)
                     /\ SymptomType_name (s_type s) = id q
       | red_flag =>
           exists rf, rf ∈ e_redFlags (extractSymptomsFromTranscript t)
                      /\ RedFlagType_name (rf_type rf) = id q
       end).
Proof.
  split; [| split].
  - intros t s Hin.
    apply (sublist_elem _ _ _ (extract_symptoms_sublist t)) in Hin.
    unfold extractableSymptoms in Hin. rewrite !elem_of_cons, elem_of_nil in Hin.
    destruct Hin as [-> | [-> | [-> | [-> | []]]]];
      eexists (mkQuestion _ _ _); (split; [| split; reflexivity]); cbn;
      unfold getUTIDecisionTree; solve [repeat constructor].
  - intros t rf Hin.
    apply (sublist_elem _ _ _ (extract_redFlags_sublist t)) in Hin.
    unfold extractableRedFlags in Hin. rewrite !elem_of_cons, elem_of_nil in Hin.
    destruct Hin as [-> | [-> | [-> | [-> | [-> | [-> | [-> | []]]]]]]];
      eexists (mkQuestion _ _ _); (split; [| split; reflexivity]); cbn;
      unfold getUTIDecisionTree; solve [repeat constructor].
  - intros q Hin. unfold getUTIDecisionTree in Hin.
    rewrite !elem_of_cons, elem_of_nil in Hin.
    destruct Hin as [-> | [-> | [-> | [-> | [-> | [-> | [-> | [-> | [-> | [-> | [-> | []]]]]]]]]]]].
    + exists "burn". eexists. split; [vm_compute; left | reflexivity].
    + exists "often". eexists. split; [vm_compute; left | reflexivity].
    + exists "cloudy". eexists. split; [vm_compute; left | reflexivity].
    + exists "tummy". eexists. split; [vm_compute; left | reflexivity].
    + exists "fever". eexists. split; [vm_compute; left | reflexivity].
    + exists "kidney". eexists. split; [vm_compute; left | reflexivity].
    + exists "vomit". eexists. split; [vm_compute; left | reflexivity].
    + exists "blood". eexists. split; [vm_compute; left | reflexivity].
    + exists "7 days". eexists. split; [vm_compute; left | reflexivity].
    + exists "pregnant". eexists. split; [vm_compute; left | reflexivity].
    + exists "diabetic". eexists. split; [vm_compute; left | reflexivity].
Qed.

Lemma extraction_matches_decision_tree_witness :
  mkRedFlag pregnancy true ∈ e_redFlags (extractSymptomsFromTranscript "baby")
  /\ exists q, q ∈ getUTIDecisionTree
               /\ id q = "pregnancy" /\ q_type q = red_flag.
Proof.
  assert (H : mkRedFlag pregnancy true
                ∈ e_redFlags (extractSymptomsFromTranscript "baby")).
  { vm_compute. left. }
  split; [exact H |].
  exact (proj1 (proj2 extraction_matches_decision_tree) "baby" _ H).
Defined.

(** X15.  What [processUTITriage] files.  A consultation needs approval exactly
    when the assessment found the case suitable for treatment, and then it
    is filed as PENDING_APPROVAL; otherwise it is a DRAFT.  The red flags
    filed are the names of the input red flags that are present, so a
    consultation with any red flag on file is a DRAFT that needs no
    approval.  The id returned is the one the database gave. *)
Theorem processUTITriage_filing (create : ConsultationData -> string)
    (orgId patientId : string) (td : TriageData) :
  let o := processUTITriage create orgId patientId td in
  let d := consultationData orgId patientId td in
  consultationId o = create d
  /\ needsApproval o = suitableForTreatment (result o)
  /\ (cd_documentationStatus d = PENDING_APPROVAL <-> needsApproval o = true)
  /\ (cd_documentationStatus d = DRAFT <-> recommendation (result o) = escalate)
  /\ cd_redFlags d
     = map (fun rf => RedFlagType_name (rf_type rf))
         (List.filter rf_present (td_redFlags td))
  /\ (cd_redFlags d <> [] ->
      cd_documentationStatus d = DRAFT /\ needsApproval o = false).
Proof.
  intros o d. subst o d.
  unfold processUTITriage, consultationData, assessUTISymptoms.
  cbn [consultationId needsApproval result cd_documentationStatus cd_redFlags].
  cbv zeta. generalize (mainSymptoms (td_symptoms td)). intros n.
  destruct (List.filter rf_present (td_redFlags td)) as [| rf l].
  - destruct (Nat.leb_spec 2 n) as [Hn | Hn]; cbn;
      repeat split; intros; try reflexivity; try discriminate;
      contradiction.
  - cbn. repeat split; intros; try reflexivity; discriminate.
Qed.

Lemma processUTITriage_filing_witness :
  cd_redFlags (consultationData "org" "patient"
                 (mkTriageData [] [mkRedFlag pregnancy true] None None)) <> []
  /\ needsApproval (processUTITriage (fun _ => "c1") "org" "patient"
                      (mkTriageData [] [mkRedFlag pregnancy true] None None))
     = false.
Proof.
  assert (H : cd_redFlags (consultationData "org" "patient"
                 (mkTriageData [] [mkRedFlag pregnancy true] None None)) <> [])
    by (vm_compute; discriminate).
  split; [exact H |].
  exact (proj2 (proj2 (proj2 (proj2 (proj2 (proj2
           (processUTITriage_filing (fun _ => "c1") "org" "patient"
              (mkTriageData [] [mkRedFlag pregnancy true] None None))))))
           H)).
Defined.

End UTIWorkerProps.

(** ** Properties of the voice agent's triage logic *)

Module VoiceAgentProps.
Import StateMachine UTI Text UTIWorker VoiceAgent Design.
Import StateMachineProps TextProps UTIWorkerProps.

(** Open [processTriageLogic] on a machine given by its fields, and split
    on which branch its state selects. *)
Ltac open_logic m t :=
  unfold processTriageLogic, getState; cbv zeta;
  remember (extractSymptomsFromTranscript t) as extraction;
  remember (toLowerCase t) as lower;
  destruct m as [st pid pn dob sy rf fo de la md]; cbn [state] in *;
  destruct (String.eqb_spec st "IDENTITY_VERIFICATION") as [-> | N1];
  [| destruct (String.eqb_spec st "SYMPTOM_ASSESSMENT") as [-> | N2];
     [| destruct (String.eqb_spec st "FOLLOW_UP_SELECTION") as [-> | N3];
        [| destruct (String.eqb_spec st "DELIVERY_OPTIONS") as [-> | N4]]]];
  cbn.

(** Split on the innermost test still standing in the goal. *)
Ltac case_logic :=
  repeat match goal with
    | |- context [match ?b with _ => _ end] =>
        lazymatch b with
        | context [match _ with _ => _ end] => fail
        | _ => destruct b; cbn
        end
    end.

Section WithMatchers.

Variable nameMatch : string -> option string.
Variable dobMatch : string -> option string.

Lemma logic_idle (t : string) (m : TriageContext) :
  state m ∉ handledStates ->
  processTriageLogic nameMatch dobMatch t m = (false, m).
Proof.
  intros H. open_logic m t;
    try (exfalso; apply H; unfold handledStates; solve [repeat constructor]).
  reflexivity.
Qed.

Lemma logic_keeps_collections (t : string) (m : TriageContext) :
  StateMachine.symptoms (snd (processTriageLogic nameMatch dobMatch t m)) = StateMachine.symptoms m
  /\ StateMachine.redFlags (snd (processTriageLogic nameMatch dobMatch t m)) = StateMachine.redFlags m
  /\ isComplete (snd (processTriageLogic nameMatch dobMatch t m))
     = isComplete m.
Proof.
  unfold isComplete. open_logic m t; case_logic; repeat split; reflexivity.
Qed.

Lemma processTranscripts_cons (t : string) (texts : list string)
    (m : TriageContext) :
  processTranscripts nameMatch dobMatch (t :: texts) m
  = processTranscripts nameMatch dobMatch texts
      (snd (processTriageLogic nameMatch dobMatch t m)).
Proof. reflexivity. Qed.

(** X16.  Outside the four states it has a branch for, the agent's triage logic
    does nothing, whatever is said: a machine in INITIAL, RED_FLAG_CHECK,
    CONFIRMATION or any other such state is the same after any number of
    utterances, and [escalateToPharmacist] is not called. *)
Theorem agent_idle_outside_handled_states (texts : list string) (t : string)
    (m : TriageContext) :
  state m ∉ handledStates ->
  processTriageLogic nameMatch dobMatch t m = (false, m)
  /\ processTranscripts nameMatch dobMatch texts m = m.
Proof.
  intros H. split; [apply logic_idle, H |].
  induction texts as [| x texts IH]; [reflexivity |].
  rewrite processTranscripts_cons, logic_idle; assumption.
Qed.

(** X17.  What the agent's triage logic never does, from any machine and for any
    utterances: it never adds a symptom or a red flag to the machine, and
    it never completes a session, so a machine that is not ESCALATED or
    COMPLETED is not brought there. *)
Theorem agent_never_records_or_completes (texts : list string)
    (m : TriageContext) :
  StateMachine.symptoms (processTranscripts nameMatch dobMatch texts m) = StateMachine.symptoms m
  /\ StateMachine.redFlags (processTranscripts nameMatch dobMatch texts m) = StateMachine.redFlags m
  /\ isComplete (processTranscripts nameMatch dobMatch texts m) = isComplete m.
Proof.
  revert m. induction texts as [| t texts IH]; intros m.
  - repeat split.
  - rewrite processTranscripts_cons.
    destruct (IH (snd (processTriageLogic nameMatch dobMatch t m)))
      as (IHs & IHr & IHc).
    destruct (logic_keeps_collections t m) as (Hs & Hr & Hc).
    repeat split; congruence.
Qed.

Lemma logic_early (t : string) (m : TriageContext) :
  state m ∈ earlyStates ->
  state (snd (processTriageLogic nameMatch dobMatch t m)) ∈ earlyStates
  /\ followUpOption (snd (processTriageLogic nameMatch dobMatch t m))
     = followUpOption m
  /\ deliveryOption (snd (processTriageLogic nameMatch dobMatch t m))
     = deliveryOption m.
Proof.
  intros H. unfold earlyStates in *.
  open_logic m t; case_logic; repeat split; try reflexivity;
    try solve [repeat constructor]; try assumption;
    exfalso; rewrite !elem_of_cons, elem_of_nil in H;
    unfold_states; intuition discriminate.
Qed.

(** X18.  The agent cannot take a session past RED_FLAG_CHECK.  It has no branch
    for that state and sends neither NO_RED_FLAGS nor START_TRIAGE, so a
    machine in INITIAL, IDENTITY_VERIFICATION, SYMPTOM_ASSESSMENT or
    RED_FLAG_CHECK is still in one of these four after any utterances, and
    no follow-up or delivery option is stored. *)
Theorem agent_stops_at_red_flag_check (texts : list string)
    (m : TriageContext) :
  state m ∈ earlyStates ->
  state (processTranscripts nameMatch dobMatch texts m) ∈ earlyStates
  /\ followUpOption (processTranscripts nameMatch dobMatch texts m)
     = followUpOption m
  /\ deliveryOption (processTranscripts nameMatch dobMatch texts m)
     = deliveryOption m.
Proof.
  revert m. induction texts as [| t texts IH]; intros m H.
  - repeat split. exact H.
  - rewrite processTranscripts_cons.
    destruct (logic_early t m H) as (Hs & Hf & Hd).
    destruct (IH _ Hs) as (IHs & IHf & IHd).
    repeat split; congruence.
Qed.

(** X19.  A red flag heard during the symptom assessment.  In SYMPTOM_ASSESSMENT
    an utterance in which the extractor finds a red flag makes the agent
    call [escalateToPharmacist], but the RED_FLAG_DETECTED event it sends
    is one the machine ignores in that state: the machine is left exactly
    as it was, not ESCALATED and with no red flag recorded. *)
Theorem red_flag_during_symptom_assessment (t : string) (m : TriageContext) :
  state m = SYMPTOM_ASSESSMENT ->
  e_redFlags (extractSymptomsFromTranscript t) <> [] ->
  processTriageLogic nameMatch dobMatch t m = (true, m)
  /\ isComplete m = false
  /\ (StateMachine.redFlags m = [] -> needsPharmacistReview m = false).
Proof.
  intros Hs Hr. split; [| split].
  - destruct m as [st pid pn dob sy rf fo de la md]. cbn [state] in Hs.
    subst st. unfold processTriageLogic, getState. cbv zeta.
    destruct (e_redFlags (extractSymptomsFromTranscript t)) as [| x l];
      [contradiction |].
    remember (toLowerCase t) as lower. cbn. reflexivity.
  - unfold isComplete. rewrite Hs. reflexivity.
  - intros H0. unfold needsPharmacistReview. rewrite Hs, H0. reflexivity.
Qed.

Lemma logic_wellTyped (t : string) (m : TriageContext) :
  wellTyped m -> wellTyped (snd (processTriageLogic nameMatch dobMatch t m)).
Proof.
  unfold wellTyped. intros (Hs & Hf & Hd).
  open_logic m t; case_logic; cbn in *;
    (split; [first [solve [repeat constructor] | assumption] |]);
    (split; intros o Ho;
     first [ injection Ho as <-; solve [repeat constructor]
           | apply Hf; exact Ho | apply Hd; exact Ho ]).
Qed.

(** X20.  The agent keeps the machine within its declared types: a machine whose
    state is one of the nine and whose follow-up and delivery options, if
    set, are values of [FollowUpOption] and [DeliveryOption] is still so
    after any utterances. *)
Theorem agent_keeps_machine_well_typed (texts : list string)
    (m : TriageContext) :
  wellTyped m -> wellTyped (processTranscripts nameMatch dobMatch texts m).
Proof.
  revert m. induction texts as [| t texts IH]; intros m H; [exact H |].
  rewrite processTranscripts_cons. apply IH, logic_wellTyped, H.
Qed.

Lemma processAudio_initial (turn : AudioTurn) (a : Agent) :
  state (triageMachine a) = INITIAL ->
  state (triageMachine (processAudio nameMatch dobMatch turn a)) = INITIAL
  /\ StateMachine.symptoms (triageMachine (processAudio nameMatch dobMatch turn a))
     = StateMachine.symptoms (triageMachine a)
  /\ a_patientId (a_state (processAudio nameMatch dobMatch turn a))
     = a_patientId (a_state a)
  /\ transcript (a_state (processAudio nameMatch dobMatch turn a))
     = (transcript (a_state a) ++ spokenTexts [turn])%list.
Proof.
  intros Hs.
  assert (Idle : forall text m, state m = INITIAL ->
            snd (processTriageLogic nameMatch dobMatch text m) = m).
  { intros text m Hm. rewrite logic_idle; [reflexivity |].
    rewrite Hm. unfold handledStates. rewrite !elem_of_cons, elem_of_nil.
    unfold_states. intuition discriminate. }
  unfold processAudio, spokenTexts. cbv zeta.
  destruct a as [org sid [cs lang tr pid] m]. cbn in Hs.
  cbn [a_state a_language].
  destruct turn as [dl [text |]]; cbn [response_text omap];
    destruct (truthy lang); cbn;
    try (destruct (String.eqb_spec text "") as [E | E]; cbn);
    rewrite ?Idle by (cbn; exact Hs);
    rewrite ?app_nil_r; repeat split; try reflexivity; exact Hs.
Qed.

Lemma spokenTexts_cons (turn : AudioTurn) (turns : list AudioTurn) :
  spokenTexts (turn :: turns) = (spokenTexts [turn] ++ spokenTexts turns)%list.
Proof.
  unfold spokenTexts. destruct turn as [dl [text |]]; cbn; [| reflexivity].
  destruct (negb (text =? "")); reflexivity.
Qed.

Lemma processAudios_initial (turns : list AudioTurn) (a : Agent) :
  state (triageMachine a) = INITIAL ->
  state (triageMachine (processAudios nameMatch dobMatch turns a)) = INITIAL
  /\ StateMachine.symptoms (triageMachine (processAudios nameMatch dobMatch turns a))
     = StateMachine.symptoms (triageMachine a)
  /\ a_patientId (a_state (processAudios nameMatch dobMatch turns a))
     = a_patientId (a_state a)
  /\ transcript (a_state (processAudios nameMatch dobMatch turns a))
     = (transcript (a_state a) ++ spokenTexts turns)%list.
Proof.
  revert a. induction turns as [| turn turns IH]; intros a Hs.
  - cbn. rewrite app_nil_r. repeat split; try reflexivity. exact Hs.
  - change (processAudios nameMatch dobMatch (turn :: turns) a)
      with (processAudios nameMatch dobMatch turns
              (processAudio nameMatch dobMatch turn a)).
    destruct (processAudio_initial turn a Hs) as (H1 & H2 & H3 & H4).
    destruct (IH _ H1) as (I1 & I2 & I3 & I4).
    rewrite spokenTexts_cons, app_assoc, <- H4.
    repeat split; congruence.
Qed.

(** X21.  The agent as built never gets the triage under way.  Its machine starts
    in INITIAL and the agent never sends START_TRIAGE, so after any call
    the machine is still in INITIAL with nothing recorded and no question
    to ask; the transcript holds the non-empty response texts in order;
    and, no patient id ever being set, [completeTriage] files no
    consultation. *)
Theorem voice_agent_never_starts_triage
    (create : ConsultationData -> string) (turns : list AudioTurn)
    (orgId sessionId preferredLanguage : string) :
  let a := processAudios nameMatch dobMatch turns
             (createVoiceAgent orgId sessionId preferredLanguage) in
  state (triageMachine a) = INITIAL
  /\ getNextQuestion (triageMachine a) = None
  /\ StateMachine.symptoms (triageMachine a) = []
  /\ transcript (a_state a) = spokenTexts turns
  /\ a_patientId (a_state a) = None
  /\ completeTriage create a = None.
Proof.
  intros a. subst a.
  destruct (processAudios_initial turns
              (createVoiceAgent orgId sessionId preferredLanguage) eq_refl)
    as (H1 & H2 & H3 & H4).
  split; [exact H1 |].
  split; [unfold getNextQuestion; rewrite H1; reflexivity |].
  split; [rewrite H2; reflexivity |].
  split; [rewrite H4; reflexivity |].
  split; [rewrite H3; reflexivity |].
  unfold completeTriage. cbv zeta. rewrite H3. reflexivity.
Qed.

(** X22.  When [completeTriage] does file a consultation, a red flag heard in any
    single utterance decides it: the utterances are joined with spaces
    before extraction, the flag is found in the joined text as well, and
    the consultation is filed with recommendation escalate and needs no
    approval. *)
Theorem completeTriage_escalates_on_red_flag
    (create : ConsultationData -> string) (a : Agent) (utterance : string)
    (o : TriageOutcome) :
  utterance ∈ transcript (a_state a) ->
  e_redFlags (extractSymptomsFromTranscript utterance) <> [] ->
  completeTriage create a = Some o ->
  recommendation (result o) = escalate
  /\ suitableForTreatment (result o) = false
  /\ needsApproval o = false.
Proof.
  intros Hin Hne Ho.
  destruct (concat_embed " " utterance _ Hin) as [pre [post Hxy]].
  assert (R : e_redFlags (extractSymptomsFromTranscript
                            (String.concat " " (transcript (a_state a)))) <> []).
  { destruct (e_redFlags (extractSymptomsFromTranscript utterance))
      as [| rf l] eqn:E; [contradiction |].
    assert (Hrf : rf ∈ e_redFlags (extractSymptomsFromTranscript utterance))
      by (rewrite E; left).
    apply (extract_redFlags_embed pre utterance post) in Hrf.
    rewrite <- Hxy in Hrf. intros N. rewrite N in Hrf. inversion Hrf. }
  pose proof (extract_redFlags_present
                (String.concat " " (transcript (a_state a)))) as Hf.
  unfold completeTriage in Ho. cbv zeta in Ho.
  remember (extractSymptomsFromTranscript
              (String.concat " " (transcript (a_state a)))) as x.
  destruct (a_patientId (a_state a)) as [pid |]; [| discriminate Ho].
  destruct (truthy (Some pid)); [| discriminate Ho].
  injection Ho as <-. unfold processUTITriage.
  cbn [result needsApproval td_symptoms td_redFlags].
  unfold assessUTISymptoms. cbv zeta. rewrite Hf.
  destruct (e_redFlags x); [contradiction |].
  cbn. repeat split.
Qed.

End WithMatchers.

Lemma agent_idle_outside_handled_states_witness :
  (state (createTriageStateMachine None) ∉ handledStates)
  /\ processTranscripts (fun _ => Some "Jane Doe") (fun _ => Some "01/02/1990")
       ["my name is Jane Doe, born 01/02/1990"; "it burns"]
       (createTriageStateMachine None)
     = createTriageStateMachine None.
Proof.
  assert (H : state (createTriageStateMachine None) ∉ handledStates).
  { cbn. unfold handledStates. rewrite !elem_of_cons, elem_of_nil.
    unfold_states. intuition discriminate. }
  split; [exact H |].
  exact (proj2 (agent_idle_outside_handled_states
                  (fun _ => Some "Jane Doe") (fun _ => Some "01/02/1990")
                  _ "" _ H)).
Defined.

Lemma agent_stops_at_red_flag_check_witness :
  state awaitingIdentity ∈ earlyStates
  /\ state (processTranscripts (fun _ => Some "Jane Doe")
              (fun _ => Some "01/02/1990")
              ["I am Jane Doe, 01/02/1990"; "it burns and I go often";
               "no fever"; "please call me"]
              awaitingIdentity) ∈ earlyStates.
Proof.
  assert (H : state awaitingIdentity ∈ earlyStates).
  { vm_compute. right. left. }
  split; [exact H |].
  exact (proj1 (agent_stops_at_red_flag_check
                  (fun _ => Some "Jane Doe") (fun _ => Some "01/02/1990")
                  _ awaitingIdentity H)).
Defined.

Lemma red_flag_during_symptom_assessment_witness :
  state (set_state SYMPTOM_ASSESSMENT (createTriageStateMachine None))
    = SYMPTOM_ASSESSMENT
  /\ e_redFlags (extractSymptomsFromTranscript "I have a fever") <> []
  /\ processTriageLogic (fun _ => None) (fun _ => None) "I have a fever"
       (set_state SYMPTOM_ASSESSMENT (createTriageStateMachine None))
     = (true, set_state SYMPTOM_ASSESSMENT (createTriageStateMachine None)).
Proof.
  assert (H : e_redFlags (extractSymptomsFromTranscript "I have a fever") <> [])
    by (vm_compute; discriminate).
  split; [reflexivity |]. split; [exact H |].
  exact (proj1 (red_flag_during_symptom_assessment
                  (fun _ => None) (fun _ => None) "I have a fever"
                  (set_state SYMPTOM_ASSESSMENT (createTriageStateMachine None))
                  eq_refl H)).
Defined.

Lemma agent_keeps_machine_well_typed_witness :
  wellTyped awaitingFollowUp
  /\ state (processTranscripts (fun _ => None) (fun _ => None)
              ["text me"; "deliver it next day please"] awaitingFollowUp)
     = CONFIRMATION
  /\ followUpOption (processTranscripts (fun _ => None) (fun _ => None)
                       ["text me"; "deliver it next day please"]
                       awaitingFollowUp)
     = Some "TEXT_MESSAGE"
  /\ deliveryOption (processTranscripts (fun _ => None) (fun _ => None)
                       ["text me"; "deliver it next day please"]
                       awaitingFollowUp)
     = Some "NEXT_DAY"
  /\ wellTyped (processTranscripts (fun _ => None) (fun _ => None)
                  ["text me"; "deliver it next day please"] awaitingFollowUp).
Proof.
  assert (H : wellTyped awaitingFollowUp).
  { split; [| split; intros o Ho; vm_compute in Ho; discriminate Ho].
    assert (E : state awaitingFollowUp = FOLLOW_UP_SELECTION)
      by (vm_compute; reflexivity).
    rewrite E. unfold triageStates. solve [repeat constructor]. }
  split; [exact H |].
  split; [vm_compute; reflexivity |].
  split; [vm_compute; reflexivity |].
  split; [vm_compute; reflexivity |].
  exact (agent_keeps_machine_well_typed (fun _ => None) (fun _ => None)
           ["text me"; "deliver it next day please"] _ H).
Defined.

Lemma completeTriage_escalates_on_red_flag_witness :
  "my back hurts" ∈ transcript (a_state (agentWith ["hello"; "my back hurts"]
                                           (Some "p1")))
  /\ e_redFlags (extractSymptomsFromTranscript "my back hurts") <> []
  /\ completeTriage (fun _ => "c1")
       (agentWith ["hello"; "my back hurts"] (Some "p1"))
     = Some (processUTITriage (fun _ => "c1") "org" "p1"
               (mkTriageData
                  (e_symptoms (extractSymptomsFromTranscript "hello my back hurts"))
                  (e_redFlags (extractSymptomsFromTranscript "hello my back hurts"))
                  None None))
  /\ needsApproval
       (processUTITriage (fun _ => "c1") "org" "p1"
          (mkTriageData
             (e_symptoms (extractSymptomsFromTranscript "hello my back hurts"))
             (e_redFlags (extractSymptomsFromTranscript "hello my back hurts"))
             None None))
     = false.
Proof.
  assert (H1 : "my back hurts"
                 ∈ transcript (a_state (agentWith ["hello"; "my back hurts"]
                                          (Some "p1")))).
  { cbn. right. left. }
  assert (H2 : e_redFlags (extractSymptomsFromTranscript "my back hurts") <> [])
    by (vm_compute; discriminate).
  assert (H3 : completeTriage (fun _ => "c1")
                 (agentWith ["hello"; "my back hurts"] (Some "p1"))
               = Some (processUTITriage (fun _ => "c1") "org" "p1"
                         (mkTriageData
                            (e_symptoms (extractSymptomsFromTranscript "hello my back hurts"))
                            (e_redFlags (extractSymptomsFromTranscript "hello my back hurts"))
                            None None)))
    by reflexivity.
  split; [exact H1 |]. split; [exact H2 |]. split; [exact H3 |].
  exact (proj2 (proj2 (completeTriage_escalates_on_red_flag
                         (fun _ => "c1") _ "my back hurts" _ H1 H2 H3))).
Defined.

End VoiceAgentProps.
